(** * viptela_python: the response normaliser and the session layer

    A shallow embedding of [viptela_python/viptela.py]: the status tables,
    the [Result] tuple, [parse_http_success], [parse_http_error],
    [parse_response], the five verb wrappers of class [Viptela], its
    constructor, [login] and [get_device_by_type].

    Python values are embedded as data, raised exceptions as the [Raise]
    branch of an outcome, and the HTTP traffic of a [requests] session as
    a log of calls threaded through a state monad. *)

From Stdlib Require Import ZArith String Ascii Floats Lia.
From stdpp Require Import gmap strings list pretty.

Local Open Scope string_scope.
Set Warnings "-register-all".

(** ** Python values *)

(** What [json.loads] can produce: [None], [bool], [int], [float], [str],
    [list] and [dict] with [str] keys.  The same type carries the plain
    strings and the empty [dict()] that the normaliser stores in a
    [Result]. *)
Inductive JSON : Type :=
| JNull
| JBool (b : bool)
| JInt (n : Z)
| JFloat (f : float)
| JString (s : string)
| JArray (l : list JSON)
| JObject (m : gmap string JSON).

(** Modelled from the spec: the module [exceptions] of the package, from
    which [viptela.py] imports [LoginCredentialsError] and
    [LoginTimeoutError], is not among the sources.  The spec calls them the
    invalid-credentials error kind and the connection/timeout error kind,
    raised by login only and distinct from each other and from every other
    error. *)
Inductive LoginError : Type :=
| LoginCredentialsError (msg : string)
| LoginTimeoutError (msg : string).

(** The exceptions that the modelled code raises or lets through:
    built-in ones, [ConnectionError] of [requests.exceptions], and the
    package's own. *)
Inductive Exception : Type :=
| ValueError (msg : string)
| KeyError (key : JSON)
| TypeError
| AttributeError (attr : string)
| ConnectionError (msg : string)
| LoginFailure (e : LoginError).

Coercion LoginFailure : LoginError >-> Exception.

(** An object stored in a [Result] field: a value or an exception object
    (the [error = e] of [parse_http_error]). *)
Inductive PyObj : Type :=
| Val (j : JSON)
| Exc (e : Exception).

(** Truth value of a Python object, as tested by [if x:]. *)
Definition truthy (j : JSON) : bool :=
  match j with
  | JNull => false
  | JBool b => b
  | JInt n => negb (n =? 0)%Z
  | JFloat f => negb (PrimFloat.eqb f 0%float)
  | JString s => negb (String.eqb s EmptyString)
  | JArray l => match l with [] => false | _ :: _ => true end
  | JObject m => negb (bool_decide (size m = 0))
  end.

(** ** Outcomes: a returned value or a raised exception *)

Inductive Outcome (A : Type) : Type :=
| Return (a : A)
| Raise (e : Exception).
Arguments Return {A} a.
Arguments Raise {A} e.

#[global] Instance Outcome_ret : MRet Outcome := fun _ a => Return a.
#[global] Instance Outcome_bind : MBind Outcome := fun _ _ k m =>
  match m with
  | Return a => k a
  | Raise e => Raise e
  end.

(** [try: body  except ValueError as e: handler e] *)
Definition try_except_ValueError {A} (body : Outcome A)
    (handler : Exception -> Outcome A) : Outcome A :=
  match body with
  | Raise (ValueError msg) => handler (ValueError msg)
  | other => other
  end.

(** [x.get(k)]: only a [dict] has the method; a missing key gives [None]. *)
Definition py_get (x : JSON) (k : string) : Outcome JSON :=
  match x with
  | JObject m => Return (default JNull (m !! k))
  | _ => Raise (AttributeError "get")
  end.

(** [x[k]] with a [str] key: [KeyError] on a [dict] without the key,
    [TypeError] on everything that is not a [dict]. *)
Definition py_getitem (x : JSON) (k : string) : Outcome JSON :=
  match x with
  | JObject m =>
      match m !! k with
      | Some v => Return v
      | None => Raise (KeyError (JString k))
      end
  | _ => Raise TypeError
  end.

(** [x in l] for a list of strings. *)
Definition py_in (x : string) (l : list string) : bool := bool_decide (x ∈ l).

(** ** The status tables *)

Definition HTTP_SUCCESS_CODES : gmap Z string :=
  {[ 200%Z := "Success" ]}.

Definition HTTP_ERROR_CODES : gmap Z string :=
  <[ 400%Z := "Bad Request" ]>
  (<[ 403%Z := "Forbidden" ]>
  (<[ 404%Z := "API Not found" ]>
  (<[ 406%Z := "Not Acceptable Response" ]>
  (<[ 415%Z := "Unsupported Media Type" ]>
  (<[ 500%Z := "Internal Server Error" ]> ∅))))).

(** [d.update(other)]: the entries of [other] win. *)
Definition dict_update (d other : gmap Z string) : gmap Z string := other ∪ d.

Definition HTTP_RESPONSE_CODES : gmap Z string :=
  dict_update (dict_update ∅ HTTP_SUCCESS_CODES) HTTP_ERROR_CODES.

(** [k in d] and [d[k]] on a status table. *)
Definition code_in (k : Z) (d : gmap Z string) : bool :=
  match d !! k with Some _ => true | None => false end.

Definition code_getitem (d : gmap Z string) (k : Z) : Outcome string :=
  match d !! k with
  | Some v => Return v
  | None => Raise (KeyError (JInt k))
  end.

(** ** The response of the [requests] library *)

(** What [response.json()] does with the body: it decodes it, or raises a
    [ValueError] (the decoder's error) when the body is not JSON. *)
Inductive Decoded : Type :=
| Parsed (j : JSON)
| Malformed (msg : string).

Module Response.

(** The attributes of a response object that the code reads;
    [request_method] is [response.request.method]. *)
Record t : Type := mk {
  status_code : Z;
  text : string;
  decoded : Decoded;
  request_method : string
}.

(** [response.ok]: true unless [raise_for_status()] would raise, which it
    does for 400 <= status_code < 600. *)
Definition ok (r : t) : bool :=
  negb (bool_decide (400 ≤ status_code r < 600)%Z).

(** [response.json()] *)
Definition json (r : t) : Outcome JSON :=
  match decoded r with
  | Parsed j => Return j
  | Malformed msg => Raise (ValueError msg)
  end.

End Response.

(** ** The Result tuple *)

Module Result.

Record t : Type := mk {
  ok : bool;
  status_code : Z;
  error : PyObj;
  reason : JSON;
  data : JSON;
  response : Response.t
}.

End Result.

(** ** The normaliser *)

Definition parse_http_success (response : Response.t) : Outcome Result.t :=
  '(reason, error, json_response) ←
    (if py_in (Response.request_method response) ["GET"] then
       reason ← code_getitem HTTP_RESPONSE_CODES (Response.status_code response);
       let error := EmptyString in
       let json_response := JString (Response.text response) in
       d ← (Response.json response ≫= fun j => py_get j "data");
       if truthy d then
         json_response ← (Response.json response ≫= fun j => py_getitem j "data");
         mret (reason, error, json_response)
       else
         c ← (Response.json response ≫= fun j => py_get j "config");
         if truthy c then
           json_response ← (Response.json response ≫= fun j => py_getitem j "config");
           mret (reason, error, json_response)
         else
           t ← (Response.json response ≫= fun j => py_get j "templateDefinition");
           if truthy t then
             json_response ←
               (Response.json response ≫= fun j => py_getitem j "templateDefinition");
             mret (reason, error, json_response)
           else
             let json_response := JObject ∅ in
             reason ← code_getitem HTTP_RESPONSE_CODES (Response.status_code response);
             let error := "No data received from device" in
             mret (reason, error, json_response)
     else if py_in (Response.text response) [EmptyString] then
       let json_response := JString (Response.text response) in
       reason ← code_getitem HTTP_RESPONSE_CODES (Response.status_code response);
       let error := EmptyString in
       mret (reason, error, json_response)
     else
       reason ← code_getitem HTTP_RESPONSE_CODES (Response.status_code response);
       let error := EmptyString in
       i ← (Response.json response ≫= fun j => py_get j "id");
       if truthy i then
         json_response ← (Response.json response ≫= fun j => py_getitem j "id");
         mret (reason, error, json_response)
       else
         d ← (Response.json response ≫= fun j => py_get j "data");
         if truthy d then
           json_response ← (Response.json response ≫= fun j => py_getitem j "data");
           mret (reason, error, json_response)
         else
           mret (reason, error, JString (Response.text response)));
  mret {| Result.ok := Response.ok response;
          Result.status_code := Response.status_code response;
          Result.reason := JString reason;
          Result.error := Val (JString error);
          Result.data := json_response;
          Result.response := response |}.

Definition parse_http_error (response : Response.t) : Outcome Result.t :=
  '(json_response, reason, error) ←
    try_except_ValueError
      (let json_response := JObject ∅ in
       reason ← (Response.json response ≫= fun j =>
                 py_getitem j "error" ≫= fun e => py_getitem e "details");
       error ← (Response.json response ≫= fun j =>
                py_getitem j "error" ≫= fun e => py_getitem e "message");
       mret (json_response, reason, Val error))
      (fun e =>
       let json_response := JObject ∅ in
       reason ← code_getitem HTTP_RESPONSE_CODES (Response.status_code response);
       let error := Exc e in
       mret (json_response, JString reason, error));
  mret {| Result.ok := Response.ok response;
          Result.status_code := Response.status_code response;
          Result.reason := reason;
          Result.error := error;
          Result.data := json_response;
          Result.response := response |}.

(** Falls off the end, returning [None], when the status is in neither table. *)
Definition parse_response (response : Response.t) : Outcome (option Result.t) :=
  if code_in (Response.status_code response) HTTP_SUCCESS_CODES then
    result ← parse_http_success response; mret (Some result)
  else if code_in (Response.status_code response) HTTP_ERROR_CODES then
    result ← parse_http_error response; mret (Some result)
  else
    mret None.

(** ** The HTTP session *)

(** The session methods the wrappers call: [session.get], [session.put]
    and [session.post]. *)
Inductive Verb : Type := GET | PUT | POST.

(** A [data=] argument: a [dict] of form fields or an encoded body. *)
Inductive Payload : Type :=
| FormFields (fields : gmap string string)
| RawBody (body : string).

(** One call on the session, with its keyword arguments; [verify] is the
    session's own setting. *)
Record Request : Type := mkRequest {
  verb : Verb;
  url : string;
  headers : gmap string string;
  data : option Payload;
  files : option (gmap string string);
  timeout : Z;
  verify : bool
}.

Record Session : Type := mkSession {
  session_verify : bool
}.

(** [requests.session()] *)
Definition requests_session : Session := {| session_verify := true |}.

(** The process-wide state the code touches: the calls made on the network
    so far, oldest first, and urllib3's warning switch. *)
Record World : Type := mkWorld {
  calls : list Request;
  warnings_disabled : bool
}.

(** Computations over a state [S] that return or raise. *)
Definition M (S A : Type) : Type := S -> Outcome A * S.

#[global] Instance M_ret {S} : MRet (M S) := fun _ a s => (Return a, s).
#[global] Instance M_bind {S} : MBind (M S) := fun _ _ k m s =>
  match m s with
  | (Return a, s') => k a s'
  | (Raise e, s') => (Raise e, s')
  end.

Definition raise {S A} (e : Exception) : M S A := fun s => (Raise e, s).

(** A pure outcome inside a computation. *)
Definition lift {S A} (o : Outcome A) : M S A := fun s => (o, s).

(** [try: body  except ConnectionError: handler] *)
Definition try_except_ConnectionError {S A} (body : M S A) (handler : M S A)
    : M S A := fun s =>
  match body s with
  | (Raise (ConnectionError _), s') => handler s'
  | other => other
  end.

(** ** The client object *)

Module Viptela.

(** The attributes of an instance; [login_result] is [None] while the
    attribute has not been assigned. *)
Record t : Type := mk {
  user : string;
  user_pass : string;
  vmanage_server : string;
  vmanage_server_port : Z;
  verify : bool;
  timeout : Z;
  disable_warnings : bool;
  auto_login : bool;
  base_url : string;
  session : Session;
  login_result : option Result.t
}.

Definition set_login_result (self : t) (r : Result.t) : t :=
  {| user := user self; user_pass := user_pass self;
     vmanage_server := vmanage_server self;
     vmanage_server_port := vmanage_server_port self;
     verify := verify self; timeout := timeout self;
     disable_warnings := disable_warnings self;
     auto_login := auto_login self; base_url := base_url self;
     session := session self; login_result := Some r |}.

End Viptela.

(** A method runs on the instance and the world. *)
Record Process : Type := mkProcess {
  self : Viptela.t;
  world : World
}.

Definition get_self : M Process Viptela.t := fun p => (Return (self p), p).

(** A call that touches the world only (the static wrappers). *)
Definition on_world {A} (m : M World A) : M Process A := fun p =>
  let '(o, w) := m (world p) in (o, {| self := self p; world := w |}).

(** The world after one more call. *)
Definition after_call (w : World) (request : Request) : World :=
  {| calls := calls w ++ [request];
     warnings_disabled := warnings_disabled w |}.

Section Backend.

(** The server side: what the network answers to a call, given the calls
    made before it; a call that cannot complete raises. *)
Variable backend : list Request -> Request -> Outcome Response.t.

Definition session_call (session : Session) (verb : Verb) (url : string)
    (headers : gmap string string) (data : option Payload)
    (files : option (gmap string string)) (timeout : Z) : M World Response.t :=
  fun w =>
    let request :=
      mkRequest verb url headers data files timeout (session_verify session) in
    (backend (calls w) request, after_call w request).

Definition json_headers : gmap string string :=
  <[ "Connection" := "keep-alive" ]> (<[ "Content-Type" := "application/json" ]> ∅).

Definition gzip_headers : gmap string string :=
  {[ "Accept-Encoding" := "gzip" ]}.

(** The static methods of class [Viptela]; [headers=None] and [data=None]
    are the [None] of the option arguments. *)
Definition _get (session : Session) (url : string)
    (headers : option (gmap string string)) (timeout : Z)
    : M World (option Result.t) :=
  let headers := match headers with None => json_headers | Some h => h end in
  response ← session_call session GET url headers None None timeout;
  lift (parse_response response).

Definition _put (session : Session) (url : string)
    (headers : option (gmap string string)) (data : option Payload) (timeout : Z)
    : M World (option Result.t) :=
  let headers := match headers with None => json_headers | Some h => h end in
  let data := match data with None => FormFields ∅ | Some d => d end in
  response ← session_call session PUT url headers (Some data) None timeout;
  lift (parse_response response).

Definition _post (session : Session) (url : string)
    (headers : option (gmap string string)) (data : option Payload) (timeout : Z)
    : M World (option Result.t) :=
  let headers := match headers with None => json_headers | Some h => h end in
  let data := match data with None => FormFields ∅ | Some d => d end in
  response ← session_call session POST url headers (Some data) None timeout;
  lift (parse_response response).

(** [data] is defaulted but not handed to [session.post]. *)
Definition _upload (session : Session) (url : string) (files : gmap string string)
    (headers : option (gmap string string)) (data : option Payload) (timeout : Z)
    : M World (option Result.t) :=
  let headers := match headers with None => gzip_headers | Some h => h end in
  let data := match data with None => FormFields ∅ | Some d => d end in
  response ← session_call session POST url headers None (Some files) timeout;
  lift (parse_response response).

(** The body ends in [pass]: nothing is sent and [None] is returned. *)
Definition _delete (session : Session) (url : string)
    (headers : option (gmap string string)) (data : option Payload) (timeout : Z)
    : M World (option Result.t) :=
  let headers := match headers with None => json_headers | Some h => h end in
  let data := match data with None => FormFields ∅ | Some d => d end in
  mret None.

(** Default [timeout] of [_get], [_put], [_post], [_delete]; of [_upload]. *)
Definition default_timeout : Z := 10.
Definition upload_timeout : Z := 15.

(** ** Login *)

(** [login_result.response]: the field of the tuple; [None], which
    [parse_response] returns for an unclassified status, has no such
    attribute. *)
Definition getattr_response (login_result : option Result.t)
    : Outcome (Result.t * Response.t) :=
  match login_result with
  | Some result => Return (result, Result.response result)
  | None => Raise (AttributeError "response")
  end.

Definition login : M Process Result.t :=
  this ← get_self;
  login_result ←
    try_except_ConnectionError
      (on_world
         (_post (Viptela.session this)
            (Viptela.base_url this ++ "/j_security_check")
            (Some {[ "Content-Type" := "application/x-www-form-urlencoded" ]})
            (Some (FormFields
               (<[ "j_username" := Viptela.user this ]>
                (<[ "j_password" := Viptela.user_pass this ]> ∅))))
            (Viptela.timeout this)))
      (raise (LoginTimeoutError
         ("Could not connect to " ++ Viptela.vmanage_server this)));
  '(result, response) ← lift (getattr_response login_result);
  if String.prefix "<html>" (Response.text response) then
    raise (LoginCredentialsError
      "Could not login to device, check user credentials")
  else
    mret result.

(** ** The constructor *)

(** [requests.packages.urllib3.disable_warnings()] *)
Definition urllib3_disable_warnings : M World unit := fun w =>
  (Return tt, {| calls := calls w; warnings_disabled := true |}).

(** [Viptela(...)]: a fresh instance is initialised attribute by attribute;
    the instance is returned only when [__init__] does not raise. *)
Definition __init__ (user user_pass vmanage_server : string)
    (vmanage_server_port : Z) (verify disable_warnings : bool) (timeout : Z)
    (auto_login : bool) : M World Viptela.t := fun w =>
  let '(_, w) :=
    (if disable_warnings then urllib3_disable_warnings else mret tt) w in
  let base_url :=
    "https://" ++ vmanage_server ++ ":" ++ pretty vmanage_server_port
      ++ "/dataservice" in
  let session := requests_session in
  let session :=
    if negb verify then {| session_verify := verify |} else session in
  let this :=
    {| Viptela.user := user; Viptela.user_pass := user_pass;
       Viptela.vmanage_server := vmanage_server;
       Viptela.vmanage_server_port := vmanage_server_port;
       Viptela.verify := verify; Viptela.timeout := timeout;
       Viptela.disable_warnings := disable_warnings;
       Viptela.auto_login := auto_login; Viptela.base_url := base_url;
       Viptela.session := session; Viptela.login_result := None |} in
  if auto_login then
    match login {| self := this; world := w |} with
    | (Return result, p) =>
        (Return (Viptela.set_login_result (self p) result), world p)
    | (Raise e, p) => (Raise e, world p)
    end
  else (Return this, w).

(** ** Devices by type *)

Definition get_device_by_type (device_type : string)
    : M Process (option Result.t) :=
  this ← get_self;
  if negb (py_in device_type ["vedges"; "controllers"]) then
    raise (ValueError ("Invalid device type: " ++ device_type))
  else
    let url := Viptela.base_url this ++ "/system/device/" ++ device_type in
    on_world (_get (Viptela.session this) url None default_timeout).

(** ** The endpoint catalog: the GET methods *)

(** Each method formats its URL under [base_url] and calls
    [self._get(self.session, url)], so with the default headers and the
    default timeout of [_get]. *)
Definition check_status (status_url : string) : M Process (option Result.t) :=
  this ← get_self;
  let url := Viptela.base_url this ++ "/device/action/status/" ++ status_url in
  on_world (_get (Viptela.session this) url None default_timeout).

Definition check_firmware : M Process (option Result.t) :=
  this ← get_self;
  let url :=
    Viptela.base_url this ++ "/device/action/install/devices/vedge?groupId=all" in
  on_world (_get (Viptela.session this) url None default_timeout).

Definition get_template_device : M Process (option Result.t) :=
  this ← get_self;
  let url := Viptela.base_url this ++ "/template/device" in
  on_world (_get (Viptela.session this) url None default_timeout).

Definition get_banner : M Process (option Result.t) :=
  this ← get_self;
  let url := Viptela.base_url this ++ "/settings/configuration/banner" in
  on_world (_get (Viptela.session this) url None default_timeout).

Definition get_all_devices : M Process (option Result.t) :=
  this ← get_self;
  let url := Viptela.base_url this ++ "/device" in
  on_world (_get (Viptela.session this) url None default_timeout).

Definition get_running_config (device_uuid : string) (attached : bool)
    : M Process (option Result.t) :=
  this ← get_self;
  let url :=
    if attached then
      Viptela.base_url this ++ "/template/config/attached/" ++ device_uuid
    else
      Viptela.base_url this ++ "/template/config/running/" ++ device_uuid in
  on_world (_get (Viptela.session this) url None default_timeout).

Definition get_device_maps : M Process (option Result.t) :=
  this ← get_self;
  let url := Viptela.base_url this ++ "/group/map/devices" in
  on_world (_get (Viptela.session this) url None default_timeout).

Definition get_arp_table (device_id : string) : M Process (option Result.t) :=
  this ← get_self;
  let url := Viptela.base_url this ++ "/device/arp?deviceId=" ++ device_id in
  on_world (_get (Viptela.session this) url None default_timeout).

Definition get_bgp_summary (device_id : string) : M Process (option Result.t) :=
  this ← get_self;
  let url :=
    Viptela.base_url this ++ "/device/bgp/summary?deviceId=" ++ device_id in
  on_world (_get (Viptela.session this) url None default_timeout).

Definition get_ospf_database (device_id : string) (summary : bool)
    : M Process (option Result.t) :=
  this ← get_self;
  let url :=
    if summary then
      Viptela.base_url this ++ "/device/ospf/databasesummary?deviceId="
        ++ device_id
    else
      Viptela.base_url this ++ "/device/ospf/database?deviceId=" ++ device_id in
  on_world (_get (Viptela.session this) url None default_timeout).

Definition get_omp_peers (device_id : string) (from_vmanage : bool)
    : M Process (option Result.t) :=
  this ← get_self;
  let url :=
    if from_vmanage then
      Viptela.base_url this ++ "/device/omp/synced/peers?deviceId=" ++ device_id
    else
      Viptela.base_url this ++ "/device/omp/peers?deviceId=" ++ device_id in
  on_world (_get (Viptela.session this) url None default_timeout).

(** [if template_id:] is the truth test of a string: false on the empty
    string, which is also the default of the argument. *)
Definition get_template_feature (template_id : string)
    : M Process (option Result.t) :=
  this ← get_self;
  let url :=
    if truthy (JString template_id) then
      Viptela.base_url this ++ "/template/feature/object/" ++ template_id
    else
      Viptela.base_url this ++ "/template/feature" in
  on_world (_get (Viptela.session this) url None default_timeout).

End Backend.

(** A method call that sends exactly one GET under [base_url], with the
    default headers, no payload and the timeout 10 whatever the instance's
    own timeout, hands the answer to [parse_response] and leaves the
    instance as it was. *)
Definition sends_one_GET
    (backend : list Request -> Request -> Outcome Response.t)
    (method : M Process (option Result.t)) (p : Process) : Prop :=
  exists request : Request,
    verb request = GET /\
    String.prefix (Viptela.base_url (self p)) (url request) = true /\
    headers request = json_headers /\
    data request = None /\ files request = None /\
    timeout request = 10%Z /\
    verify request = session_verify (Viptela.session (self p)) /\
    method p =
      (backend (calls (world p)) request ≫= parse_response,
       {| self := self p; world := after_call (world p) request |}).

(** The call that [login] sends for an instance. *)
Definition login_request (this : Viptela.t) : Request :=
  mkRequest POST (Viptela.base_url this ++ "/j_security_check")
    {[ "Content-Type" := "application/x-www-form-urlencoded" ]}
    (Some (FormFields
       (<[ "j_username" := Viptela.user this ]>
        (<[ "j_password" := Viptela.user_pass this ]> ∅))))
    None (Viptela.timeout this) (session_verify (Viptela.session this)).

(** The process after [login]: the same instance, one more call. *)
Definition after_login (p : Process) : Process :=
  {| self := self p; world := after_call (world p) (login_request (self p)) |}.

(** The statuses of the two tables, as the lists of their keys. *)
Definition success_statuses : list Z := [200%Z].
Definition error_statuses : list Z := [400; 403; 404; 406; 415; 500]%Z.

(** ** Sample traffic *)

Definition quote : string := String "034"%char EmptyString.

(** The decoder's complaint about a body that is not JSON. *)
Definition expecting_value : string := "No JSON object could be decoded".

(** 200, GET, body [{"data": [7]}] *)
Definition sample_devices : Response.t :=
  Response.mk 200 ("{" ++ quote ++ "data" ++ quote ++ ": [7]}")
    (Parsed (JObject {[ "data" := JArray [JInt 7] ]})) "GET".

(** 200, GET, body [{"data": []}] *)
Definition sample_no_devices : Response.t :=
  Response.mk 200 ("{" ++ quote ++ "data" ++ quote ++ ": []}")
    (Parsed (JObject {[ "data" := JArray [] ]})) "GET".

(** 200, GET, body [{}] *)
Definition sample_empty_object : Response.t :=
  Response.mk 200 "{}" (Parsed (JObject ∅)) "GET".

(** 200, GET, a body that is not JSON *)
Definition sample_plain_text : Response.t :=
  Response.mk 200 "device unreachable" (Malformed expecting_value) "GET".

(** 404, GET, body [{}] *)
Definition sample_not_found_bare : Response.t :=
  Response.mk 404 "{}" (Parsed (JObject ∅)) "GET".

(** 404, GET, a body that is not JSON *)
Definition sample_not_found_text : Response.t :=
  Response.mk 404 "Not Found" (Malformed expecting_value) "GET".

(** 400, GET, body [{"error": {"details": "No device", "message": "Bad id"}}] *)
Definition sample_bad_request : Response.t :=
  Response.mk 400
    ("{" ++ quote ++ "error" ++ quote ++ ": {"
         ++ quote ++ "details" ++ quote ++ ": " ++ quote ++ "No device" ++ quote
         ++ ", " ++ quote ++ "message" ++ quote ++ ": " ++ quote ++ "Bad id"
         ++ quote ++ "}}")
    (Parsed (JObject {[ "error" :=
       JObject (<[ "details" := JString "No device" ]>
               (<[ "message" := JString "Bad id" ]> ∅)) ]}))
    "GET".

(** 401, GET: a status of neither table *)
Definition sample_unauthorized : Response.t :=
  Response.mk 401 "Unauthorized" (Malformed expecting_value) "GET".

(** The answers to a login POST: the login page with status 200, the login
    page with status 403, and the empty body of an accepted login. *)
Definition sample_login_page : Response.t :=
  Response.mk 200 "<html><body>Login</body></html>"
    (Malformed expecting_value) "POST".

Definition sample_login_forbidden : Response.t :=
  Response.mk 403 "<html><body>Login</body></html>"
    (Malformed expecting_value) "POST".

Definition sample_login_accepted : Response.t :=
  Response.mk 200 EmptyString (Malformed expecting_value) "POST".

(** A backend that gives the same answer to every call. *)
Definition always (response : Response.t)
    : list Request -> Request -> Outcome Response.t :=
  fun _ _ => Return response.

Definition quiet_world : World := {| calls := []; warnings_disabled := false |}.

(** The instance that [Viptela('admin', 'secret', 'vmanage.example.net',
    auto_login=False)] builds. *)
Definition sample_client : Viptela.t :=
  {| Viptela.user := "admin"; Viptela.user_pass := "secret";
     Viptela.vmanage_server := "vmanage.example.net";
     Viptela.vmanage_server_port := 8443;
     Viptela.verify := false; Viptela.timeout := 10;
     Viptela.disable_warnings := false; Viptela.auto_login := false;
     Viptela.base_url := "https://vmanage.example.net:8443/dataservice";
     Viptela.session := {| session_verify := false |};
     Viptela.login_result := None |}.

Definition sample_process : Process :=
  {| self := sample_client; world := quiet_world |}.

(** 200, GET, body [{"data": [], "config": "system host-name vedge1"}] *)
Definition sample_config : Response.t :=
  Response.mk 200
    ("{" ++ quote ++ "data" ++ quote ++ ": [], " ++ quote ++ "config" ++ quote
         ++ ": " ++ quote ++ "system host-name vedge1" ++ quote ++ "}")
    (Parsed (JObject (<[ "data" := JArray [] ]>
                     (<[ "config" := JString "system host-name vedge1" ]> ∅))))
    "GET".

(** 200, POST, body [{"id": "push-7"}] *)
Definition sample_push : Response.t :=
  Response.mk 200 ("{" ++ quote ++ "id" ++ quote ++ ": " ++ quote ++ "push-7"
                       ++ quote ++ "}")
    (Parsed (JObject {[ "id" := JString "push-7" ]})) "POST".

(** A backend that cannot be reached. *)
Definition refusing : list Request -> Request -> Outcome Response.t :=
  fun _ _ => Raise (ConnectionError "Connection refused").

(** * Properties *)

(** ** The status tables *)

Lemma code_in_success (s : Z) :
  code_in s HTTP_SUCCESS_CODES = true <-> s ∈ success_statuses.
Proof.
  unfold code_in, HTTP_SUCCESS_CODES, success_statuses.
  rewrite list_elem_of_singleton.
  destruct (decide (s = 200%Z)) as [->|Hne].
  - rewrite lookup_singleton_eq. tauto.
  - rewrite lookup_singleton_ne by congruence. split; [discriminate | tauto].
Qed.

Lemma error_statuses_cases (s : Z) :
  s ∈ error_statuses <->
  s = 400%Z \/ s = 403%Z \/ s = 404%Z \/ s = 406%Z \/ s = 415%Z \/ s = 500%Z.
Proof.
  unfold error_statuses. rewrite !elem_of_cons, elem_of_nil. tauto.
Qed.

Lemma code_in_error (s : Z) :
  code_in s HTTP_ERROR_CODES = true <-> s ∈ error_statuses.
Proof.
  rewrite error_statuses_cases. unfold code_in, HTTP_ERROR_CODES. split.
  - intros H.
    repeat match goal with
           | |- ?s = ?k \/ _ =>
               destruct (decide (s = k)) as [?|?]; [tauto | right]
           end.
    destruct (decide (s = 500%Z)) as [?|?]; [tauto|].
    rewrite !lookup_insert_ne, lookup_empty in H by congruence. discriminate.
  - intros [->|[->|[->|[->|[->| ->]]]]]; reflexivity.
Qed.

(** Every error status is a client or server error for [requests]. *)
Lemma error_status_range (s : Z) : s ∈ error_statuses -> (400 <= s < 600)%Z.
Proof. rewrite error_statuses_cases. lia. Qed.

Lemma error_status_not_success (s : Z) :
  s ∈ error_statuses -> code_in s HTTP_SUCCESS_CODES = false.
Proof.
  rewrite error_statuses_cases.
  intros [->|[->|[->|[->|[->| ->]]]]]; reflexivity.
Qed.

(** The merged table agrees with the error table on the error statuses. *)
Lemma response_codes_error (s : Z) :
  s ∈ error_statuses ->
  exists phrase, HTTP_ERROR_CODES !! s = Some phrase /\
                 code_getitem HTTP_RESPONSE_CODES s = Return phrase.
Proof.
  rewrite error_statuses_cases.
  intros [->|[->|[->|[->|[->| ->]]]]]; eexists; split; reflexivity.
Qed.

Lemma response_codes_200 :
  code_getitem HTTP_RESPONSE_CODES 200 = Return "Success".
Proof. reflexivity. Qed.

Lemma Response_ok_200 (r : Response.t) :
  Response.status_code r = 200%Z -> Response.ok r = true.
Proof.
  intros H. unfold Response.ok. rewrite H.
  rewrite bool_decide_eq_false_2; [reflexivity | lia].
Qed.

Lemma Response_ok_error (r : Response.t) :
  Response.status_code r ∈ error_statuses -> Response.ok r = false.
Proof.
  intros H%error_status_range. unfold Response.ok.
  rewrite bool_decide_eq_true_2; [reflexivity | exact H].
Qed.

(** ** What a returned Result carries *)

Lemma parse_http_success_fields (response : Response.t) (result : Result.t) :
  parse_http_success response = Return result ->
  Result.ok result = Response.ok response /\
  Result.status_code result = Response.status_code response /\
  Result.response result = response.
Proof.
  unfold parse_http_success. intros H.
  unfold mbind, Outcome_bind in H.
  match type of H with
  | match ?o with Return _ => _ | Raise _ => _ end = _ => destruct o as [[[? ?] ?]|]
  end; [|discriminate].
  injection H as <-. auto.
Qed.

Lemma parse_http_error_fields (response : Response.t) (result : Result.t) :
  parse_http_error response = Return result ->
  Result.ok result = Response.ok response /\
  Result.status_code result = Response.status_code response /\
  Result.response result = response.
Proof.
  unfold parse_http_error. intros H.
  unfold mbind, Outcome_bind in H.
  match type of H with
  | match ?o with Return _ => _ | Raise _ => _ end = _ => destruct o as [[[? ?] ?]|]
  end; [|discriminate].
  injection H as <-. auto.
Qed.

Lemma parse_response_fields (response : Response.t) (result : Result.t) :
  parse_response response = Return (Some result) ->
  Result.ok result = Response.ok response /\
  Result.status_code result = Response.status_code response /\
  Result.response result = response.
Proof.
  unfold parse_response. intros H.
  destruct (code_in _ HTTP_SUCCESS_CODES).
  - destruct (parse_http_success response) eqn:E; [|discriminate].
    injection H as ->. by apply parse_http_success_fields.
  - destruct (code_in _ HTTP_ERROR_CODES); [|discriminate].
    destruct (parse_http_error response) eqn:E; [|discriminate].
    injection H as ->. by apply parse_http_error_fields.
Qed.

(** C1. For a status classified by [parse_response] (200 or one of 400,
    403, 404, 406, 415, 500) the call never falls through to [None], and
    the Result it returns has [ok] true exactly when the status is 200;
    with an error status the Result has [ok] false.  The Result also
    repeats the status of the response. *)
Theorem parse_response_ok_iff_200 (response : Response.t) :
  Response.status_code response ∈ (success_statuses ++ error_statuses)%list ->
  parse_response response <> Return None /\
  forall result : Result.t,
    parse_response response = Return (Some result) ->
    (Result.ok result = true <-> Response.status_code response = 200%Z) /\
    (Response.status_code response ∈ error_statuses ->
     Result.ok result = false) /\
    Result.status_code result = Response.status_code response.
Proof.
  intros Hs. apply elem_of_app in Hs. split.
  - unfold parse_response. destruct Hs as [Hs|Hs].
    + apply code_in_success in Hs. rewrite Hs.
      destruct (parse_http_success response); discriminate.
    + rewrite (error_status_not_success _ Hs).
      apply code_in_error in Hs. rewrite Hs.
      destruct (parse_http_error response); discriminate.
  - intros result (Hok & Hcode & _)%parse_response_fields.
    rewrite Hok. split; [|split; [|exact Hcode]].
    + destruct Hs as [Hs|Hs].
      * apply list_elem_of_singleton in Hs.
        rewrite (Response_ok_200 _ Hs). tauto.
      * rewrite (Response_ok_error _ Hs).
        apply error_statuses_cases in Hs. split; [discriminate | lia].
    + apply Response_ok_error.
Qed.

(** The theorem at a 200 answer carrying devices and at a 404 answer that
    is not JSON. *)
Lemma parse_response_ok_iff_200_witness :
  (exists result : Result.t,
     parse_response sample_devices = Return (Some result) /\
     Result.ok result = true /\ Result.status_code result = 200%Z) /\
  (exists result : Result.t,
     parse_response sample_not_found_text = Return (Some result) /\
     Result.ok result = false /\ Result.status_code result = 404%Z).
Proof.
  split.
  - eexists. split; [vm_compute; reflexivity|].
    destruct (parse_response_ok_iff_200 sample_devices) as [_ H].
    { simpl. apply list_elem_of_here. }
    destruct (H _ eq_refl) as (Hok & _ & Hcode).
    split; [apply Hok; reflexivity | exact Hcode].
  - eexists. split; [vm_compute; reflexivity|].
    destruct (parse_response_ok_iff_200 sample_not_found_text) as [_ H].
    { apply elem_of_app. right. apply error_statuses_cases.
      vm_compute. tauto. }
    destruct (H _ eq_refl) as (_ & Hok & Hcode).
    split; [apply Hok | exact Hcode].
    apply error_statuses_cases. vm_compute. tauto.
Defined.

(** ** The shapes the normaliser extracts *)

Lemma json_parsed (r : Response.t) (j : JSON) :
  Response.decoded r = Parsed j -> Response.json r = Return j.
Proof. unfold Response.json. by intros ->. Qed.

Lemma json_malformed (r : Response.t) (msg : string) :
  Response.decoded r = Malformed msg -> Response.json r = Raise (ValueError msg).
Proof. unfold Response.json. by intros ->. Qed.

(** Enter [parse_http_success] for a 200 answer to a GET. *)
Ltac enter_success_GET Hs Hm :=
  unfold parse_response; rewrite Hs;
  change (code_in 200 HTTP_SUCCESS_CODES) with true; cbv iota;
  unfold parse_http_success;
  rewrite Hm, ?Hs, (Response_ok_200 _ Hs);
  change (py_in "GET" ["GET"]) with true; cbv iota;
  rewrite response_codes_200.

(** Enter [parse_http_error] for an error status. *)
Ltac enter_error Hs :=
  unfold parse_response;
  rewrite (error_status_not_success _ Hs), (proj2 (code_in_error _) Hs);
  unfold parse_http_error;
  rewrite (Response_ok_error _ Hs).

(** C2, amended. For a response with status 200 to a GET whose JSON body
    is an object holding a truthy value X under the key data (a non-empty
    list, object or string, a non-zero number, true), the Result has ok
    true and data X, with an empty error. *)
Theorem parse_response_get_data_truthy
    (response : Response.t) (m : gmap string JSON) (X : JSON) :
  Response.status_code response = 200%Z ->
  Response.request_method response = "GET" ->
  Response.decoded response = Parsed (JObject m) ->
  m !! "data" = Some X ->
  truthy X = true ->
  parse_response response =
    Return (Some {| Result.ok := true;
                    Result.status_code := 200;
                    Result.error := Val (JString EmptyString);
                    Result.reason := JString "Success";
                    Result.data := X;
                    Result.response := response |}).
Proof.
  intros Hs Hm Hd%json_parsed HX Ht.
  enter_success_GET Hs Hm. rewrite Hd.
  cbn [mbind Outcome_bind mret Outcome_ret py_get py_getitem].
  rewrite HX. change (default JNull (Some X)) with X. rewrite Ht.
  reflexivity.
Qed.

Lemma parse_response_get_data_truthy_witness :
  parse_response sample_devices =
    Return (Some {| Result.ok := true;
                    Result.status_code := 200;
                    Result.error := Val (JString EmptyString);
                    Result.reason := JString "Success";
                    Result.data := JArray [JInt 7];
                    Result.response := sample_devices |}).
Proof.
  apply (parse_response_get_data_truthy sample_devices
           {[ "data" := JArray [JInt 7] ]} (JArray [JInt 7]));
    reflexivity.
Defined.

(** C2 as stated fails on a falsy value: the body [{"data": []}] has the
    key data with value [[]], yet the Result carries the empty mapping and
    the error of the no-data case, not the empty list. *)
Lemma parse_response_get_data_falsy_counterexample :
  Response.status_code sample_no_devices = 200%Z /\
  Response.request_method sample_no_devices = "GET" /\
  Response.decoded sample_no_devices =
    Parsed (JObject {[ "data" := JArray [] ]}) /\
  ({[ "data" := JArray [] ]} : gmap string JSON) !! "data" = Some (JArray []) /\
  parse_response sample_no_devices =
    Return (Some {| Result.ok := true;
                    Result.status_code := 200;
                    Result.error := Val (JString "No data received from device");
                    Result.reason := JString "Success";
                    Result.data := JObject ∅;
                    Result.response := sample_no_devices |}) /\
  ~ (exists result,
       parse_response sample_no_devices = Return (Some result) /\
       Result.data result = JArray []).
Proof.
  repeat split; try reflexivity.
  intros (result & Hr & Hdata).
  vm_compute in Hr. injection Hr as <-. discriminate Hdata.
Qed.

(** C3, on the code. Two kinds of classified responses for which no
    Result comes back: with status 200 and a body that is not JSON, to a
    GET or with a non-empty text, the decoder's ValueError leaves
    [parse_response]; with an error status and a JSON object without the
    key error it is a KeyError, which the handler for ValueError does not
    catch. *)
Theorem parse_response_lets_exceptions_through :
  (forall (response : Response.t) (msg : string),
     Response.status_code response = 200%Z ->
     Response.request_method response = "GET" \/
     Response.text response <> EmptyString ->
     Response.decoded response = Malformed msg ->
     parse_response response = Raise (ValueError msg)) /\
  (forall (response : Response.t) (m : gmap string JSON),
     Response.status_code response ∈ error_statuses ->
     Response.decoded response = Parsed (JObject m) ->
     m !! "error" = None ->
     parse_response response = Raise (KeyError (JString "error"))).
Proof.
  split.
  - intros response msg Hs Hm Hd%json_malformed.
    unfold parse_response. rewrite Hs.
    change (code_in 200 HTTP_SUCCESS_CODES) with true. cbv iota.
    unfold parse_http_success. rewrite Hs, Hd, response_codes_200.
    destruct (py_in (Response.request_method response) ["GET"]) eqn:Hget;
      [reflexivity|].
    destruct Hm as [Hm|Htext].
    { rewrite Hm in Hget. discriminate Hget. }
    unfold py_in. rewrite bool_decide_eq_false_2; [reflexivity|].
    intros H%list_elem_of_singleton. exact (Htext H).
  - intros response m Hs Hd%json_parsed Hm.
    enter_error Hs. rewrite Hd.
    cbn [mbind Outcome_bind mret Outcome_ret py_getitem].
    rewrite Hm. reflexivity.
Qed.

Lemma parse_response_lets_exceptions_through_witness :
  parse_response sample_plain_text = Raise (ValueError expecting_value) /\
  parse_response sample_not_found_bare = Raise (KeyError (JString "error")).
Proof.
  destruct parse_response_lets_exceptions_through as [Hsuccess Herror].
  split.
  - apply Hsuccess; [reflexivity | left; reflexivity | reflexivity].
  - apply (Herror sample_not_found_bare ∅); [| reflexivity | reflexivity].
    apply error_statuses_cases. vm_compute. tauto.
Defined.

(** C4. For a response with an error status whose body decodes to an
    object with, under error, an object holding details D and message M,
    the Result has ok false, reason D and error M (and empty data). *)
Theorem parse_response_error_detail
    (response : Response.t) (m e : gmap string JSON) (D M : JSON) :
  Response.status_code response ∈ error_statuses ->
  Response.decoded response = Parsed (JObject m) ->
  m !! "error" = Some (JObject e) ->
  e !! "details" = Some D ->
  e !! "message" = Some M ->
  parse_response response =
    Return (Some {| Result.ok := false;
                    Result.status_code := Response.status_code response;
                    Result.error := Val M;
                    Result.reason := D;
                    Result.data := JObject ∅;
                    Result.response := response |}).
Proof.
  intros Hs Hd%json_parsed Hm HD HM.
  enter_error Hs. rewrite Hd.
  cbn [mbind Outcome_bind mret Outcome_ret py_getitem].
  rewrite Hm.
  cbn [mbind Outcome_bind mret Outcome_ret py_getitem].
  rewrite HD, HM. reflexivity.
Qed.

Lemma parse_response_error_detail_witness :
  parse_response sample_bad_request =
    Return (Some {| Result.ok := false;
                    Result.status_code := 400;
                    Result.error := Val (JString "Bad id");
                    Result.reason := JString "No device";
                    Result.data := JObject ∅;
                    Result.response := sample_bad_request |}).
Proof.
  apply (parse_response_error_detail sample_bad_request
           {[ "error" :=
                JObject (<[ "details" := JString "No device" ]>
                        (<[ "message" := JString "Bad id" ]> ∅)) ]}
           (<[ "details" := JString "No device" ]>
           (<[ "message" := JString "Bad id" ]> ∅))
           (JString "No device") (JString "Bad id"));
    try reflexivity.
  apply error_statuses_cases. vm_compute. tauto.
Defined.

(** C5. For a response with an error status whose body is not JSON, the
    Result has ok false, as reason the phrase of the table for that status
    (404 gives API Not found), as error the decoder's exception, and the
    empty mapping as data. *)
Theorem parse_response_error_not_json (response : Response.t) (msg : string) :
  Response.status_code response ∈ error_statuses ->
  Response.decoded response = Malformed msg ->
  HTTP_ERROR_CODES !! 404%Z = Some "API Not found" /\
  exists phrase : string,
    HTTP_ERROR_CODES !! Response.status_code response = Some phrase /\
    parse_response response =
      Return (Some {| Result.ok := false;
                      Result.status_code := Response.status_code response;
                      Result.error := Exc (ValueError msg);
                      Result.reason := JString phrase;
                      Result.data := JObject ∅;
                      Result.response := response |}).
Proof.
  intros Hs Hd%json_malformed. split; [reflexivity|].
  destruct (response_codes_error _ Hs) as (phrase & Hphrase & Hget).
  exists phrase. split; [exact Hphrase|].
  enter_error Hs. rewrite Hd.
  cbn [mbind Outcome_bind mret Outcome_ret try_except_ValueError].
  rewrite Hget. reflexivity.
Qed.

Lemma parse_response_error_not_json_witness :
  HTTP_ERROR_CODES !! 404%Z = Some "API Not found" /\
  exists phrase : string,
    HTTP_ERROR_CODES !! 404%Z = Some phrase /\
    parse_response sample_not_found_text =
      Return (Some {| Result.ok := false;
                      Result.status_code := 404;
                      Result.error := Exc (ValueError expecting_value);
                      Result.reason := JString phrase;
                      Result.data := JObject ∅;
                      Result.response := sample_not_found_text |}).
Proof.
  apply (parse_response_error_not_json sample_not_found_text expecting_value);
    [| reflexivity].
  apply error_statuses_cases. vm_compute. tauto.
Defined.

(** C6. For a response with status 200 to a GET whose JSON body is an
    object with none of the keys data, config and templateDefinition, the
    Result has ok true, the empty mapping as data and the non-empty error
    No data received from device: ok follows the status alone. *)
Theorem parse_response_get_no_data
    (response : Response.t) (m : gmap string JSON) :
  Response.status_code response = 200%Z ->
  Response.request_method response = "GET" ->
  Response.decoded response = Parsed (JObject m) ->
  m !! "data" = None ->
  m !! "config" = None ->
  m !! "templateDefinition" = None ->
  parse_response response =
    Return (Some {| Result.ok := true;
                    Result.status_code := 200;
                    Result.error := Val (JString "No data received from device");
                    Result.reason := JString "Success";
                    Result.data := JObject ∅;
                    Result.response := response |}) /\
  "No data received from device" <> EmptyString.
Proof.
  intros Hs Hm Hd%json_parsed Hdata Hconfig Htemplate.
  split; [|discriminate].
  enter_success_GET Hs Hm. rewrite Hd.
  cbn [mbind Outcome_bind mret Outcome_ret py_get py_getitem].
  rewrite Hdata, Hconfig, Htemplate.
  change (truthy (default JNull None)) with false. cbv iota.
  reflexivity.
Qed.

Lemma parse_response_get_no_data_witness :
  parse_response sample_empty_object =
    Return (Some {| Result.ok := true;
                    Result.status_code := 200;
                    Result.error := Val (JString "No data received from device");
                    Result.reason := JString "Success";
                    Result.data := JObject ∅;
                    Result.response := sample_empty_object |}) /\
  "No data received from device" <> EmptyString.
Proof.
  apply (parse_response_get_no_data sample_empty_object ∅); reflexivity.
Defined.

(** ** The verb wrappers *)

Section Wrappers.

Variable backend : list Request -> Request -> Outcome Response.t.

Lemma session_call_then_parse (session : Session) (verb : Verb) (url : string)
    (headers : gmap string string) (data : option Payload)
    (files : option (gmap string string)) (timeout : Z) (w : World) :
  (session_call backend session verb url headers data files timeout ≫=
     fun response => lift (parse_response response)) w =
  let request :=
    mkRequest verb url headers data files timeout (session_verify session) in
  (backend (calls w) request ≫= parse_response, after_call w request).
Proof.
  unfold mbind at 1. unfold M_bind, session_call, lift. cbv zeta.
  destruct (backend _ _); reflexivity.
Qed.

Lemma _get_call (session : Session) (url : string)
    (headers : option (gmap string string)) (timeout : Z) (w : World) :
  _get backend session url headers timeout w =
  let request :=
    mkRequest GET url (default json_headers headers) None None timeout
      (session_verify session) in
  (backend (calls w) request ≫= parse_response, after_call w request).
Proof. unfold _get. rewrite session_call_then_parse. by destruct headers. Qed.

Lemma _put_call (session : Session) (url : string)
    (headers : option (gmap string string)) (data : option Payload)
    (timeout : Z) (w : World) :
  _put backend session url headers data timeout w =
  let request :=
    mkRequest PUT url (default json_headers headers)
      (Some (default (FormFields ∅) data)) None timeout
      (session_verify session) in
  (backend (calls w) request ≫= parse_response, after_call w request).
Proof.
  unfold _put. rewrite session_call_then_parse. by destruct headers, data.
Qed.

Lemma _post_call (session : Session) (url : string)
    (headers : option (gmap string string)) (data : option Payload)
    (timeout : Z) (w : World) :
  _post backend session url headers data timeout w =
  let request :=
    mkRequest POST url (default json_headers headers)
      (Some (default (FormFields ∅) data)) None timeout
      (session_verify session) in
  (backend (calls w) request ≫= parse_response, after_call w request).
Proof.
  unfold _post. rewrite session_call_then_parse. by destruct headers, data.
Qed.

Lemma _upload_call (session : Session) (url : string)
    (files : gmap string string) (headers : option (gmap string string))
    (data : option Payload) (timeout : Z) (w : World) :
  _upload backend session url files headers data timeout w =
  let request :=
    mkRequest POST url (default gzip_headers headers) None (Some files) timeout
      (session_verify session) in
  (backend (calls w) request ≫= parse_response, after_call w request).
Proof.
  unfold _upload. rewrite session_call_then_parse. by destruct headers.
Qed.

(** C9. [_delete] sends nothing and returns [None] whatever its
    arguments: the world, with its log of calls, is unchanged.  Each of
    [_get], [_put], [_post] and [_upload] adds exactly one call to the log
    and returns what [parse_response] makes of the answer. *)
Theorem delete_sends_nothing (session : Session) (url : string)
    (headers : option (gmap string string)) (data : option Payload)
    (files : gmap string string) (timeout : Z) (w : World) :
  _delete session url headers data timeout w = (Return None, w) /\
  (let request :=
     mkRequest GET url (default json_headers headers) None None timeout
       (session_verify session) in
   _get backend session url headers timeout w =
     (backend (calls w) request ≫= parse_response, after_call w request)) /\
  (let request :=
     mkRequest PUT url (default json_headers headers)
       (Some (default (FormFields ∅) data)) None timeout
       (session_verify session) in
   _put backend session url headers data timeout w =
     (backend (calls w) request ≫= parse_response, after_call w request)) /\
  (let request :=
     mkRequest POST url (default json_headers headers)
       (Some (default (FormFields ∅) data)) None timeout
       (session_verify session) in
   _post backend session url headers data timeout w =
     (backend (calls w) request ≫= parse_response, after_call w request)) /\
  (let request :=
     mkRequest POST url (default gzip_headers headers) None (Some files) timeout
       (session_verify session) in
   _upload backend session url files headers data timeout w =
     (backend (calls w) request ≫= parse_response, after_call w request)).
Proof.
  split; [reflexivity|].
  split; [apply _get_call|].
  split; [apply _put_call|].
  split; [apply _post_call | apply _upload_call].
Qed.

(** C10. A response whose status is neither 200 nor one of 400, 403, 404,
    406, 415, 500 makes [parse_response] return [None]; so does each of
    [_get], [_put], [_post] and [_upload] when the backend answers its
    call with such a response. *)
Theorem unclassified_status_gives_None (response : Response.t) :
  Response.status_code response ∉ success_statuses ->
  Response.status_code response ∉ error_statuses ->
  parse_response response = Return None /\
  forall (session : Session) (url : string)
         (headers : option (gmap string string)) (data : option Payload)
         (files : gmap string string) (timeout : Z) (w : World),
    (backend (calls w)
       (mkRequest GET url (default json_headers headers) None None timeout
          (session_verify session)) = Return response ->
     fst (_get backend session url headers timeout w) = Return None) /\
    (backend (calls w)
       (mkRequest PUT url (default json_headers headers)
          (Some (default (FormFields ∅) data)) None timeout
          (session_verify session)) = Return response ->
     fst (_put backend session url headers data timeout w) = Return None) /\
    (backend (calls w)
       (mkRequest POST url (default json_headers headers)
          (Some (default (FormFields ∅) data)) None timeout
          (session_verify session)) = Return response ->
     fst (_post backend session url headers data timeout w) = Return None) /\
    (backend (calls w)
       (mkRequest POST url (default gzip_headers headers) None (Some files)
          timeout (session_verify session)) = Return response ->
     fst (_upload backend session url files headers data timeout w)
       = Return None).
Proof.
  intros Hsuccess Herror.
  assert (Hparse : parse_response response = Return None).
  { unfold parse_response.
    destruct (code_in _ HTTP_SUCCESS_CODES) eqn:E1.
    { by apply code_in_success in E1. }
    destruct (code_in _ HTTP_ERROR_CODES) eqn:E2.
    { by apply code_in_error in E2. }
    reflexivity. }
  split; [exact Hparse|].
  intros session url headers data files timeout w.
  rewrite _get_call, _put_call, _post_call, _upload_call. cbv zeta.
  repeat split; intros ->; exact Hparse.
Qed.

(** C8. [get_device_by_type] lets through exactly vedges and controllers:
    for these it sends one GET for base_url/system/device/<type> and
    returns what [parse_response] makes of the answer; for any other
    argument it raises a ValueError and leaves the instance and the world,
    with its log of calls, as they were. *)
Theorem get_device_by_type_validates (device_type : string) (p : Process) :
  (device_type ∈ ["vedges"; "controllers"] ->
   let request :=
     mkRequest GET
       (Viptela.base_url (self p) ++ "/system/device/" ++ device_type)
       json_headers None None 10
       (session_verify (Viptela.session (self p))) in
   get_device_by_type backend device_type p =
     (backend (calls (world p)) request ≫= parse_response,
      {| self := self p; world := after_call (world p) request |})) /\
  (device_type ∉ ["vedges"; "controllers"] ->
   get_device_by_type backend device_type p =
     (Raise (ValueError ("Invalid device type: " ++ device_type)), p)).
Proof.
  unfold get_device_by_type, py_in. split; intros H.
  - unfold mbind, M_bind, get_self.
    rewrite bool_decide_eq_true_2 by exact H. cbn [negb].
    unfold on_world. rewrite _get_call. reflexivity.
  - unfold mbind, M_bind, get_self.
    rewrite bool_decide_eq_false_2 by exact H. reflexivity.
Qed.

(** The call that [login] makes for an instance. *)
Lemma login_unfold (p : Process) :
  login backend p =
  let this := self p in
  let request :=
    mkRequest POST (Viptela.base_url this ++ "/j_security_check")
      {[ "Content-Type" := "application/x-www-form-urlencoded" ]}
      (Some (FormFields
         (<[ "j_username" := Viptela.user this ]>
          (<[ "j_password" := Viptela.user_pass this ]> ∅))))
      None (Viptela.timeout this) (session_verify (Viptela.session this)) in
  let p' := {| self := this; world := after_call (world p) request |} in
  match backend (calls (world p)) request ≫= parse_response with
  | Raise (ConnectionError _) =>
      (Raise (LoginTimeoutError
         ("Could not connect to " ++ Viptela.vmanage_server this)), p')
  | Raise e => (Raise e, p')
  | Return None => (Raise (AttributeError "response"), p')
  | Return (Some result) =>
      if String.prefix "<html>" (Response.text (Result.response result))
      then (Raise (LoginCredentialsError
              "Could not login to device, check user credentials"), p')
      else (Return result, p')
  end.
Proof.
  unfold login. unfold mbind at 1 2. unfold M_bind at 1 2.
  unfold get_self, try_except_ConnectionError, on_world.
  rewrite _post_call. cbv zeta. cbn [default from_option id].
  destruct (backend _ _ ≫= parse_response) as [[result|]|[]]; try reflexivity.
  unfold mbind, M_bind, lift, getattr_response, raise, mret, M_ret.
  destruct (String.prefix _ _); reflexivity.
Qed.

(** [login] assigns no attribute: the instance is the same afterwards. *)
Lemma login_keeps_self (p : Process) : self (snd (login backend p)) = self p.
Proof.
  rewrite login_unfold. cbv zeta.
  destruct (backend _ _ ≫= parse_response) as [[result|]|[]]; try reflexivity.
  destruct (String.prefix _ _); reflexivity.
Qed.

(** C7, amended. When the authentication POST is answered and
    [parse_response] makes a Result of the answer, [login] raises
    LoginCredentialsError if the body starts with <html> and returns that
    Result otherwise, leaving the instance as it was.  The constructor
    stores what [login] returns in login_result when auto_login is on, and
    leaves login_result unassigned, sending nothing, when it is off. *)
Theorem login_result_or_credentials_error :
  (forall (p : Process) (response : Response.t) (result : Result.t),
     let this := self p in
     let request :=
       mkRequest POST (Viptela.base_url this ++ "/j_security_check")
         {[ "Content-Type" := "application/x-www-form-urlencoded" ]}
         (Some (FormFields
            (<[ "j_username" := Viptela.user this ]>
             (<[ "j_password" := Viptela.user_pass this ]> ∅))))
         None (Viptela.timeout this) (session_verify (Viptela.session this)) in
     backend (calls (world p)) request = Return response ->
     parse_response response = Return (Some result) ->
     login backend p =
       (if String.prefix "<html>" (Response.text response)
        then Raise (LoginCredentialsError
               "Could not login to device, check user credentials")
        else Return result,
        {| self := this; world := after_call (world p) request |})) /\
  (forall (user user_pass vmanage_server : string) (vmanage_server_port : Z)
          (verify disable_warnings : bool) (timeout : Z) (auto_login : bool)
          (w w' : World) (this : Viptela.t),
     __init__ backend user user_pass vmanage_server vmanage_server_port
       verify disable_warnings timeout auto_login w = (Return this, w') ->
     if auto_login then
       exists (p0 p1 : Process) (result : Result.t),
         Viptela.login_result (self p0) = None /\
         calls (world p0) = calls w /\
         login backend p0 = (Return result, p1) /\
         this = Viptela.set_login_result (self p0) result /\
         w' = world p1
     else
       Viptela.login_result this = None /\ calls w' = calls w).
Proof.
  split.
  - intros p response result this request Hanswer Hparse.
    rewrite login_unfold. cbv zeta. fold this. fold request.
    rewrite Hanswer. cbn [mbind Outcome_bind]. rewrite Hparse.
    destruct (parse_response_fields _ _ Hparse) as (_ & _ & ->).
    destruct (String.prefix _ _); reflexivity.
  - intros user user_pass vmanage_server vmanage_server_port verify
      disable_warnings timeout auto_login w w' this.
    unfold __init__.
    destruct ((if disable_warnings then urllib3_disable_warnings else mret tt) w)
      as [o w1] eqn:Hwarn.
    assert (Hcalls : calls w1 = calls w).
    { destruct disable_warnings; injection Hwarn as _ <-; reflexivity. }
    destruct auto_login.
    + match goal with
      | |- context [login backend ?p] => set (p0 := p)
      end.
      destruct (login backend p0) as [[result|e] p1] eqn:Hlogin;
        [|discriminate].
      intros [= <- <-]. exists p0, p1, result.
      split; [reflexivity|]. split; [exact Hcalls|].
      split; [exact Hlogin|]. split; [|reflexivity].
      pose proof (login_keeps_self p0) as Hself.
      rewrite Hlogin in Hself. cbn [snd] in Hself. by rewrite Hself.
    + intros [= <- <-]. split; [reflexivity | exact Hcalls].
Qed.

End Wrappers.

(** ** The wrappers and the client on the sample traffic *)

(** The theorem at a 401 answer, alone and through each wrapper. *)
Lemma unclassified_status_gives_None_witness :
  parse_response sample_unauthorized = Return None /\
  fst (_get (always sample_unauthorized) requests_session
         "https://vmanage.example.net:8443/dataservice/device" None 10
         quiet_world) = Return None /\
  fst (_put (always sample_unauthorized) requests_session
         "https://vmanage.example.net:8443/dataservice/settings/configuration/banner"
         None (Some (RawBody "{}")) 10 quiet_world) = Return None /\
  fst (_post (always sample_unauthorized) requests_session
         "https://vmanage.example.net:8443/dataservice/device/action/install"
         None None 10 quiet_world) = Return None /\
  fst (_upload (always sample_unauthorized) requests_session
         "https://vmanage.example.net:8443/dataservice/device/action/software/package"
         {[ "file" := "viptela.tar.gz" ]} None None 15 quiet_world)
    = Return None.
Proof.
  destruct (unclassified_status_gives_None (always sample_unauthorized)
              sample_unauthorized) as [Hparse Hwrappers].
  - intros H%list_elem_of_singleton. discriminate H.
  - intros H%error_statuses_cases. vm_compute in H. lia.
  - split; [exact Hparse|].
    split; [|split; [|split]].
    + apply (proj1 (Hwrappers requests_session
               "https://vmanage.example.net:8443/dataservice/device"
               None None ∅ 10%Z quiet_world)).
      reflexivity.
    + apply (proj1 (proj2 (Hwrappers requests_session
               "https://vmanage.example.net:8443/dataservice/settings/configuration/banner"
               None (Some (RawBody "{}")) ∅ 10%Z quiet_world))).
      reflexivity.
    + apply (proj1 (proj2 (proj2 (Hwrappers requests_session
               "https://vmanage.example.net:8443/dataservice/device/action/install"
               None None ∅ 10%Z quiet_world)))).
      reflexivity.
    + apply (proj2 (proj2 (proj2 (Hwrappers requests_session
               "https://vmanage.example.net:8443/dataservice/device/action/software/package"
               None None {[ "file" := "viptela.tar.gz" ]} 15%Z quiet_world)))).
      reflexivity.
Defined.

(** The theorem on the sample instance: vedges is let through and one GET
    is sent; foo is refused and nothing is sent. *)
Lemma get_device_by_type_validates_witness :
  fst (get_device_by_type (always sample_devices) "vedges" sample_process) =
    parse_response sample_devices /\
  calls (world (snd (get_device_by_type (always sample_devices) "vedges"
                       sample_process))) =
    [mkRequest GET
       "https://vmanage.example.net:8443/dataservice/system/device/vedges"
       json_headers None None 10 false] /\
  get_device_by_type (always sample_devices) "foo" sample_process =
    (Raise (ValueError "Invalid device type: foo"), sample_process).
Proof.
  destruct (get_device_by_type_validates (always sample_devices) "vedges"
              sample_process) as [Haccept _].
  destruct (get_device_by_type_validates (always sample_devices) "foo"
              sample_process) as [_ Hreject].
  rewrite Haccept by apply list_elem_of_here.
  rewrite Hreject.
  - split; [reflexivity|]. split; reflexivity.
  - intros [H|[H|H]%elem_of_cons]%elem_of_cons;
      [discriminate H | discriminate H | by apply elem_of_nil in H].
Defined.

(** The theorem on the sample instance: the login page with status 403 is
    refused, an accepted login returns its Result, and the constructor
    with auto_login on stores it. *)
Lemma login_result_or_credentials_error_witness :
  fst (login (always sample_login_forbidden) sample_process) =
    Raise (LoginCredentialsError
             "Could not login to device, check user credentials") /\
  (exists result : Result.t,
     parse_response sample_login_accepted = Return (Some result) /\
     fst (login (always sample_login_accepted) sample_process) = Return result) /\
  (exists (p0 p1 : Process) (result : Result.t),
     login (always sample_login_accepted) p0 = (Return result, p1) /\
     fst (__init__ (always sample_login_accepted) "admin" "secret"
            "vmanage.example.net" 8443 false false 10 true quiet_world) =
       Return (Viptela.set_login_result (self p0) result)).
Proof.
  destruct (login_result_or_credentials_error (always sample_login_forbidden))
    as [Hforbidden _].
  destruct (login_result_or_credentials_error (always sample_login_accepted))
    as [Haccepted Hinit].
  split; [|split].
  - erewrite (Hforbidden sample_process sample_login_forbidden);
      [reflexivity | reflexivity | vm_compute; reflexivity].
  - eexists. split; [vm_compute; reflexivity|].
    erewrite (Haccepted sample_process sample_login_accepted);
      [reflexivity | reflexivity | vm_compute; reflexivity].
  - destruct (__init__ (always sample_login_accepted) "admin" "secret"
                "vmanage.example.net" 8443 false false 10 true quiet_world)
      as [o w'] eqn:Hnew.
    assert (Hreturn : exists this, o = Return this).
    { vm_compute in Hnew. injection Hnew as <- _. eexists. reflexivity. }
    destruct Hreturn as [this ->].
    destruct (Hinit _ _ _ _ _ _ _ true _ _ _ Hnew)
      as (p0 & p1 & result & _ & _ & Hlogin & -> & _).
    exists p0, p1, result. split; [exact Hlogin | reflexivity].
Defined.

(** C7 as stated fails twice.  The login page sent with status 200 makes
    [login] raise the decoder's ValueError, not LoginCredentialsError.  An
    accepted login on an instance built with auto_login off returns the
    Result, and the instance still has no login_result. *)
Lemma login_counterexample :
  (Response.status_code sample_login_page = 200%Z /\
   String.prefix "<html>" (Response.text sample_login_page) = true /\
   fst (login (always sample_login_page) sample_process) =
     Raise (ValueError expecting_value) /\
   forall msg : string,
     fst (login (always sample_login_page) sample_process) <>
     Raise (LoginFailure (LoginCredentialsError msg))) /\
  (__init__ (always sample_login_accepted) "admin" "secret"
     "vmanage.example.net" 8443 false false 10 false quiet_world =
     (Return sample_client, quiet_world) /\
   String.prefix "<html>" (Response.text sample_login_accepted) = false /\
   exists (result : Result.t) (p' : Process),
     login (always sample_login_accepted) sample_process = (Return result, p') /\
     Viptela.login_result (self p') = None).
Proof.
  split.
  - assert (Hlogin : fst (login (always sample_login_page) sample_process) =
                     Raise (ValueError expecting_value))
      by (vm_compute; reflexivity).
    split; [reflexivity|]. split; [reflexivity|]. split; [exact Hlogin|].
    intros msg. rewrite Hlogin. discriminate.
  - split; [vm_compute; reflexivity|]. split; [reflexivity|].
    eexists. eexists. split; [vm_compute; reflexivity | reflexivity].
Qed.

(** * More of the normaliser *)

Lemma py_in_singleton (x y : string) : py_in x [y] = true <-> x = y.
Proof.
  unfold py_in. rewrite bool_decide_eq_true. apply list_elem_of_singleton.
Qed.

Lemma py_in_singleton_false (x y : string) : py_in x [y] = false <-> x <> y.
Proof.
  unfold py_in. rewrite bool_decide_eq_false. by rewrite list_elem_of_singleton.
Qed.

(** Enter [parse_http_success] for a 200 answer, whatever the method. *)
Ltac enter_success Hs :=
  unfold parse_response; rewrite Hs;
  change (code_in 200 HTTP_SUCCESS_CODES) with true; cbv iota;
  unfold parse_http_success;
  rewrite ?Hs, (Response_ok_200 _ Hs), response_codes_200.

Ltac run_binds :=
  cbn [mbind Outcome_bind mret Outcome_ret py_get py_getitem].

(** Go through the keys of the object [m] that the code looks up, absent
    or present, falsy or truthy. *)
Ltac settle_keys_by m finish :=
  repeat first
    [ finish
    | progress cbn [default from_option id]
    | progress (change (truthy JNull) with false; cbv iota)
    | match goal with
      | |- context [m !! ?k] => destruct (m !! k)
      | |- context [truthy ?v] => destruct (truthy v)
      end ].

Ltac settle_keys m := settle_keys_by m ltac:(reflexivity).

(** X1. The order of the keys on a GET: data, then config, then
    templateDefinition, the first truthy value wins; with none the data is
    the empty mapping and the error is set.  A 200 answer to a GET with an
    object body always gives a Result. *)
Theorem parse_response_get_priority
    (response : Response.t) (m : gmap string JSON) :
  Response.status_code response = 200%Z ->
  Response.request_method response = "GET" ->
  Response.decoded response = Parsed (JObject m) ->
  let data := default JNull (m !! "data") in
  let config := default JNull (m !! "config") in
  let template := default JNull (m !! "templateDefinition") in
  parse_response response =
    Return (Some
      {| Result.ok := true;
         Result.status_code := 200;
         Result.error :=
           Val (JString
                  (if truthy data || truthy config || truthy template
                   then EmptyString else "No data received from device"));
         Result.reason := JString "Success";
         Result.data :=
           if truthy data then data
           else if truthy config then config
           else if truthy template then template
           else JObject ∅;
         Result.response := response |}).
Proof.
  intros Hs Hm Hd%json_parsed data config template.
  subst data config template.
  enter_success_GET Hs Hm. rewrite Hd. run_binds.
  settle_keys m.
Qed.

(** X2. A 200 answer with an empty body to a call that is not a GET gives
    a Result with the empty string as data and no error; the body is never
    decoded. *)
Theorem parse_response_empty_body (response : Response.t) :
  Response.status_code response = 200%Z ->
  Response.request_method response <> "GET" ->
  Response.text response = EmptyString ->
  parse_response response =
    Return (Some
      {| Result.ok := true;
         Result.status_code := 200;
         Result.error := Val (JString EmptyString);
         Result.reason := JString "Success";
         Result.data := JString EmptyString;
         Result.response := response |}).
Proof.
  intros Hs Hm%py_in_singleton_false Ht.
  enter_success Hs. rewrite Hm, Ht. reflexivity.
Qed.

(** X3. The order of the keys on a call that is not a GET, for a non-empty
    object body: id, then data, the first truthy value wins; with neither
    the data is the raw text.  The error is always empty. *)
Theorem parse_response_post_priority
    (response : Response.t) (m : gmap string JSON) :
  Response.status_code response = 200%Z ->
  Response.request_method response <> "GET" ->
  Response.text response <> EmptyString ->
  Response.decoded response = Parsed (JObject m) ->
  let id := default JNull (m !! "id") in
  let data := default JNull (m !! "data") in
  parse_response response =
    Return (Some
      {| Result.ok := true;
         Result.status_code := 200;
         Result.error := Val (JString EmptyString);
         Result.reason := JString "Success";
         Result.data :=
           if truthy id then id
           else if truthy data then data
           else JString (Response.text response);
         Result.response := response |}).
Proof.
  intros Hs Hm%py_in_singleton_false Ht%py_in_singleton_false
    Hd%json_parsed id data.
  subst id data.
  enter_success Hs. rewrite Hm, Ht, Hd. run_binds.
  settle_keys m.
Qed.

(** A 200 answer whose body has to be decoded and is not JSON. *)
Lemma success_malformed (response : Response.t) (msg : string) :
  Response.status_code response = 200%Z ->
  Response.request_method response = "GET" \/
  Response.text response <> EmptyString ->
  Response.decoded response = Malformed msg ->
  parse_response response = Raise (ValueError msg).
Proof.
  intros Hs Hm Hd%json_malformed.
  enter_success Hs. rewrite Hd.
  destruct (py_in (Response.request_method response) ["GET"]) eqn:Hget;
    [reflexivity|].
  destruct Hm as [Hm|Ht]; [by apply py_in_singleton_false in Hget|].
  apply py_in_singleton_false in Ht. rewrite Ht. reflexivity.
Qed.

(** A 200 answer whose body has to be decoded and is JSON but no object. *)
Lemma success_not_object (response : Response.t) (j : JSON) :
  Response.status_code response = 200%Z ->
  Response.request_method response = "GET" \/
  Response.text response <> EmptyString ->
  Response.decoded response = Parsed j ->
  (forall m, j <> JObject m) ->
  parse_response response = Raise (AttributeError "get").
Proof.
  intros Hs Hm Hd%json_parsed Hj.
  enter_success Hs. rewrite Hd.
  assert (Hget : py_get j "data" = Raise (AttributeError "get") /\
                 py_get j "id" = Raise (AttributeError "get")).
  { destruct j; try (split; reflexivity). by destruct (Hj m). }
  destruct Hget as [Hdata Hid].
  destruct (py_in (Response.request_method response) ["GET"]) eqn:Hget.
  { cbn [mbind Outcome_bind]. rewrite Hdata. reflexivity. }
  destruct Hm as [Hm|Ht]; [by apply py_in_singleton_false in Hget|].
  apply py_in_singleton_false in Ht. rewrite Ht.
  cbn [mbind Outcome_bind]. rewrite Hid. reflexivity.
Qed.

(** A 200 answer with an object body, or with an empty body to a call
    that is no GET, gives a Result. *)
Lemma success_object_returns (response : Response.t) (m : gmap string JSON) :
  Response.status_code response = 200%Z ->
  Response.decoded response = Parsed (JObject m) ->
  exists result, parse_response response = Return (Some result).
Proof.
  intros Hs Hd%json_parsed.
  enter_success Hs. rewrite Hd.
  destruct (py_in (Response.request_method response) ["GET"]);
    [|destruct (py_in (Response.text response) [EmptyString])];
    run_binds; settle_keys_by m ltac:(eexists; reflexivity).
Qed.

Lemma success_empty_returns (response : Response.t) :
  Response.status_code response = 200%Z ->
  Response.request_method response <> "GET" ->
  Response.text response = EmptyString ->
  exists result, parse_response response = Return (Some result).
Proof.
  intros Hs Hm%py_in_singleton_false Ht.
  enter_success Hs. rewrite Hm, Ht. eexists. reflexivity.
Qed.

(** X4. With status 200 a Result comes back exactly when the body is
    empty and the call no GET, or the body decodes to an object.  Otherwise
    the call raises: the decoder's ValueError for a body that is not JSON,
    AttributeError for JSON that is no object (a list, a string, a number,
    true, false, null). *)
Theorem parse_response_200_outcomes (response : Response.t) :
  Response.status_code response = 200%Z ->
  ((exists result, parse_response response = Return (Some result)) <->
   (Response.request_method response <> "GET" /\
    Response.text response = EmptyString) \/
   (exists m, Response.decoded response = Parsed (JObject m))) /\
  (forall e : Exception,
     parse_response response = Raise e ->
     (exists msg, Response.decoded response = Malformed msg /\
                  e = ValueError msg) \/
     (exists j, Response.decoded response = Parsed j /\
                (forall m, j <> JObject m) /\
                e = AttributeError "get")).
Proof.
  intros Hs.
  destruct (decide (Response.request_method response = "GET")) as [Hm|Hm];
    [|destruct (decide (Response.text response = EmptyString)) as [Ht|Ht]].
  2: { destruct (success_empty_returns _ Hs Hm Ht) as [result Hr].
       split; [split; eauto|]. intros e He. congruence. }
  all: assert (Hdecode : Response.request_method response = "GET" \/
                         Response.text response <> EmptyString) by tauto.
  all: destruct (Response.decoded response) as [j|msg] eqn:Hd.
  all: try (assert (Hobj : (exists m, j = JObject m) \/ forall m, j <> JObject m)
              by (destruct j; eauto; right; discriminate);
            destruct Hobj as [[m ->]|Hobj]).
  all: first
    [ destruct (success_object_returns _ _ Hs Hd) as [result Hr];
      split; [split; eauto|]; intros e He; congruence
    | pose proof (success_not_object _ _ Hs Hdecode Hd Hobj) as Hr;
      split;
      [ split;
        [ intros [result Hres]; congruence
        | intros [[? ?]|[m [= ->]]]; [tauto | by destruct (Hobj m)] ]
      | intros e He; right; exists j; rewrite Hr in He;
        injection He as <-; auto ]
    | pose proof (success_malformed _ _ Hs Hdecode Hd) as Hr;
      split;
      [ split;
        [ intros [result Hres]; congruence
        | intros [[? ?]|[m [=]]]; tauto ]
      | intros e He; left; exists msg; rewrite Hr in He;
        injection He as <-; auto ] ].
Qed.

(** X5. With an error status a Result comes back exactly when the body is
    not JSON, or decodes to an object whose error entry is an object with
    both details and message.  Every other JSON body makes the call raise
    TypeError (something that is no object is indexed) or KeyError (error,
    details or message is missing). *)
Theorem parse_response_error_outcomes (response : Response.t) :
  Response.status_code response ∈ error_statuses ->
  ((exists result, parse_response response = Return (Some result)) <->
   (exists msg, Response.decoded response = Malformed msg) \/
   (exists (m e : gmap string JSON) (D M : JSON),
      Response.decoded response = Parsed (JObject m) /\
      m !! "error" = Some (JObject e) /\
      e !! "details" = Some D /\ e !! "message" = Some M)) /\
  (forall x : Exception,
     parse_response response = Raise x ->
     x = TypeError \/ x = KeyError (JString "error") \/
     x = KeyError (JString "details") \/ x = KeyError (JString "message")).
Proof.
  intros Hs. destruct (response_codes_error _ Hs) as (phrase & _ & Hget).
  enter_error Hs. unfold Response.json. rewrite Hget.
  assert (Hraise : forall x0 : Exception,
    x0 = TypeError \/ x0 = KeyError (JString "error") \/
    x0 = KeyError (JString "details") \/ x0 = KeyError (JString "message") ->
    forall P : Prop, ~ P ->
    ((exists result : Result.t,
        @Raise (option Result.t) x0 = Return (Some result)) <-> P) /\
    (forall x : Exception,
       @Raise (option Result.t) x0 = Raise x ->
       x = TypeError \/ x = KeyError (JString "error") \/
       x = KeyError (JString "details") \/ x = KeyError (JString "message"))).
  { intros x0 Hx0 P HP. split.
    - split; [intros [result [=]] | tauto].
    - by intros x [= <-]. }
  assert (Hreturn : forall (result0 : Result.t) (P : Prop), P ->
    ((exists result : Result.t,
        Return (Some result0) = Return (Some result)) <-> P) /\
    (forall x : Exception,
       Return (Some result0) = Raise x ->
       x = TypeError \/ x = KeyError (JString "error") \/
       x = KeyError (JString "details") \/ x = KeyError (JString "message"))).
  { intros result0 P HP. split; [split; eauto | discriminate]. }
  destruct (Response.decoded response) as [j|msg].
  - destruct j as [| | | | | |m]; run_binds; cbn [try_except_ValueError];
      try (apply Hraise; [tauto|];
           intros [[? [=]]|(? & ? & ? & ? & [=] & _)]).
    destruct (m !! "error") as [[| | | | | |e]|] eqn:Herror; run_binds;
      cbn [try_except_ValueError];
      try (apply Hraise; [tauto|];
           intros [[? [=]]|(? & ? & ? & ? & [= <-] & ? & _)]; congruence).
    destruct (e !! "details") as [D|] eqn:Hdetails; run_binds;
      cbn [try_except_ValueError];
      [|apply Hraise; [tauto|];
        intros [[? [=]]|(? & ? & ? & ? & [= <-] & ? & ? & _)]; congruence].
    destruct (e !! "message") as [M|] eqn:Hmessage; run_binds;
      cbn [try_except_ValueError];
      [|apply Hraise; [tauto|];
        intros [[? [=]]|(? & ? & ? & ? & [= <-] & ? & ? & ?)]; congruence].
    apply Hreturn. right. exists m, e, D, M. auto.
  - run_binds. cbn [try_except_ValueError]. run_binds.
    apply Hreturn. left. by exists msg.
Qed.

Ltac run_binds_in H :=
  cbn [mbind Outcome_bind mret Outcome_ret py_get py_getitem] in H.

Lemma parse_http_success_texts (response : Response.t) (result : Result.t) :
  Response.status_code response = 200%Z ->
  parse_http_success response = Return result ->
  Result.reason result = JString "Success" /\
  (Result.error result = Val (JString EmptyString) \/
   Result.error result = Val (JString "No data received from device") /\
   Result.data result = JObject ∅ /\
   Response.request_method response = "GET").
Proof.
  intros Hs H. unfold parse_http_success in H.
  rewrite Hs, response_codes_200 in H.
  destruct (py_in (Response.request_method response) ["GET"]) eqn:Hget;
    [apply py_in_singleton in Hget
    |destruct (py_in (Response.text response) [EmptyString])];
    destruct (Response.json response) as [[| | | | | |m]|x];
    run_binds_in H; try discriminate H;
    repeat first
      [ progress cbn [default from_option id] in H
      | progress (change (truthy JNull) with false in H; cbv iota in H)
      | match type of H with
        | context [m !! ?k] => destruct (m !! k)
        | context [truthy ?v] => destruct (truthy v)
        end ];
    run_binds_in H; injection H as <-; cbn; auto.
Qed.

Lemma parse_http_error_data (response : Response.t) (result : Result.t) :
  parse_http_error response = Return result ->
  Result.data result = JObject ∅.
Proof.
  intros H. unfold parse_http_error in H.
  destruct (code_getitem HTTP_RESPONSE_CODES (Response.status_code response))
    as [phrase|x0];
    destruct (Response.json response) as [[| | | | | |m]|[]];
    run_binds_in H; cbn [try_except_ValueError] in H; run_binds_in H;
    try discriminate H; try (injection H as <-; reflexivity).
  all: destruct (m !! "error") as [[| | | | | |e]|]; run_binds_in H;
    cbn [try_except_ValueError] in H; try discriminate H.
  all: destruct (e !! "details"); run_binds_in H;
    cbn [try_except_ValueError] in H; try discriminate H.
  all: destruct (e !! "message"); run_binds_in H;
    cbn [try_except_ValueError] in H; try discriminate H.
  all: injection H as <-; reflexivity.
Qed.

(** X6. What any Result of [parse_response] looks like.  It carries the
    response it was made from and its status.  Either ok is true, the
    status is 200, the reason is Success and the error is empty, or is the
    no-data message with empty data on a GET; or ok is false, the status
    is one of the six error statuses and the data is the empty mapping. *)
Theorem parse_response_result_shape
    (response : Response.t) (result : Result.t) :
  parse_response response = Return (Some result) ->
  Result.response result = response /\
  Result.status_code result = Response.status_code response /\
  (Result.ok result = true /\
   Response.status_code response = 200%Z /\
   Result.reason result = JString "Success" /\
   (Result.error result = Val (JString EmptyString) \/
    Result.error result = Val (JString "No data received from device") /\
    Result.data result = JObject ∅ /\
    Response.request_method response = "GET")
   \/
   Result.ok result = false /\
   Response.status_code response ∈ error_statuses /\
   Result.data result = JObject ∅).
Proof.
  intros H.
  destruct (parse_response_fields _ _ H) as (Hok & Hcode & Hresponse).
  split; [exact Hresponse|]. split; [exact Hcode|].
  unfold parse_response in H.
  destruct (code_in _ HTTP_SUCCESS_CODES) eqn:Hsuccess.
  - apply code_in_success, list_elem_of_singleton in Hsuccess.
    destruct (parse_http_success response) as [r|] eqn:Hr; [|discriminate H].
    injection H as ->. left.
    rewrite Hok, (Response_ok_200 _ Hsuccess).
    destruct (parse_http_success_texts _ _ Hsuccess Hr) as [Hreason Herror].
    auto.
  - destruct (code_in _ HTTP_ERROR_CODES) eqn:Herror; [|discriminate H].
    apply code_in_error in Herror.
    destruct (parse_http_error response) as [r|] eqn:Hr; [|discriminate H].
    injection H as ->. right.
    rewrite Hok, (Response_ok_error _ Herror).
    split; [reflexivity|]. split; [exact Herror|].
    exact (parse_http_error_data _ _ Hr).
Qed.

(** * More of the client *)

Lemma prefix_app (s t : string) : String.prefix s (s ++ t) = true.
Proof.
  induction s as [|c s IH].
  - by destruct t.
  - change (String c s ++ t) with (String c (s ++ t)).
    cbn [String.prefix].
    destruct (Ascii.ascii_dec c c); [exact IH | congruence].
Qed.

Section Client.

Variable backend : list Request -> Request -> Outcome Response.t.

(** [login] in terms of the answer to its one call. *)
Lemma login_cases (p : Process) :
  login backend p =
  match backend (calls (world p)) (login_request (self p)) ≫= parse_response with
  | Raise (ConnectionError _) =>
      (Raise (LoginFailure (LoginTimeoutError
         ("Could not connect to " ++ Viptela.vmanage_server (self p)))),
       after_login p)
  | Raise e => (Raise e, after_login p)
  | Return None => (Raise (AttributeError "response"), after_login p)
  | Return (Some result) =>
      if String.prefix "<html>" (Response.text (Result.response result))
      then (Raise (LoginFailure (LoginCredentialsError
              "Could not login to device, check user credentials")),
            after_login p)
      else (Return result, after_login p)
  end.
Proof. apply login_unfold. Qed.

(** X7. When the connection fails, [login] turns the ConnectionError into
    a LoginTimeoutError that names the server; any other exception of the
    call passes through unchanged.  Either way the one call is logged. *)
Theorem login_connection_failure (p : Process) (e : Exception) :
  backend (calls (world p)) (login_request (self p)) = Raise e ->
  login backend p =
    (Raise (match e with
            | ConnectionError _ =>
                LoginFailure (LoginTimeoutError
                  ("Could not connect to " ++ Viptela.vmanage_server (self p)))
            | _ => e
            end),
     after_login p).
Proof.
  intros H. rewrite login_cases, H. cbn [mbind Outcome_bind].
  by destruct e.
Qed.

(** X8. When the login call is answered with a status of neither table,
    [login] raises AttributeError: there is no Result to read the response
    from. *)
Theorem login_unclassified_status (p : Process) (response : Response.t) :
  backend (calls (world p)) (login_request (self p)) = Return response ->
  Response.status_code response ∉ success_statuses ->
  Response.status_code response ∉ error_statuses ->
  login backend p = (Raise (AttributeError "response"), after_login p).
Proof.
  intros H Hsuccess Herror. rewrite login_cases, H. cbn [mbind Outcome_bind].
  unfold parse_response.
  destruct (code_in _ HTTP_SUCCESS_CODES) eqn:E1.
  { by apply code_in_success in E1. }
  destruct (code_in _ HTTP_ERROR_CODES) eqn:E2.
  { by apply code_in_error in E2. }
  reflexivity.
Qed.

Lemma login_world (p : Process) : snd (login backend p) = after_login p.
Proof.
  rewrite login_cases.
  destruct (backend _ _ ≫= parse_response) as [[result|]|[]]; try reflexivity.
  destruct (String.prefix _ _); reflexivity.
Qed.

(** X9. Whatever the backend does, [login] sends exactly one call, the
    POST of the credentials, and leaves the instance as it was.  A Result
    that [login] returns is what [parse_response] made of the answer to
    that call, and its body does not start with <html>. *)
Theorem login_sends_one_call (p : Process) :
  snd (login backend p) = after_login p /\
  forall result : Result.t,
    fst (login backend p) = Return result ->
    exists response : Response.t,
      backend (calls (world p)) (login_request (self p)) = Return response /\
      parse_response response = Return (Some result) /\
      String.prefix "<html>" (Response.text response) = false.
Proof.
  rewrite login_cases.
  destruct (backend _ _) as [response|e] eqn:Hanswer; cbn [mbind Outcome_bind].
  - destruct (parse_response response) as [[result|]|e] eqn:Hparse.
    + destruct (parse_response_fields _ _ Hparse) as (_ & _ & ->).
      destruct (String.prefix _ _) eqn:Hhtml; (split; [reflexivity|]);
        intros result' [= <-]. eauto.
    + split; [reflexivity | discriminate].
    + split; [by destruct e | by destruct e].
  - split; [by destruct e | by destruct e].
Qed.

(** X10. [login] does not look at ok.  An answer with an error status
    whose body does not start with <html> and from which [parse_response]
    makes a Result is returned as that Result, with ok false, and nothing
    is raised. *)
Theorem login_returns_error_result
    (p : Process) (response : Response.t) (result : Result.t) :
  backend (calls (world p)) (login_request (self p)) = Return response ->
  Response.status_code response ∈ error_statuses ->
  String.prefix "<html>" (Response.text response) = false ->
  parse_response response = Return (Some result) ->
  login backend p = (Return result, after_login p) /\
  Result.ok result = false.
Proof.
  intros Hanswer Hs Hhtml Hparse.
  destruct (parse_response_fields _ _ Hparse) as (Hok & _ & Hresponse).
  rewrite login_cases, Hanswer. cbn [mbind Outcome_bind].
  rewrite Hparse, Hresponse, Hhtml. split; [reflexivity|].
  rewrite Hok. by apply Response_ok_error.
Qed.

(** X11. [login] on a page of HTML, a body that starts with <html> and is
    not JSON: with an error status it raises LoginCredentialsError; with
    status 200 the decoder's ValueError comes out instead; with a status
    of neither table, AttributeError. *)
Theorem login_on_html_page
    (p : Process) (response : Response.t) (msg : string) :
  backend (calls (world p)) (login_request (self p)) = Return response ->
  String.prefix "<html>" (Response.text response) = true ->
  Response.decoded response = Malformed msg ->
  fst (login backend p) =
    Raise (if bool_decide (Response.status_code response = 200%Z)
           then ValueError msg
           else if bool_decide (Response.status_code response ∈ error_statuses)
           then LoginFailure (LoginCredentialsError
                  "Could not login to device, check user credentials")
           else AttributeError "response").
Proof.
  intros Hanswer Hhtml Hd.
  rewrite login_cases, Hanswer. cbn [mbind Outcome_bind].
  case_bool_decide as Hs.
  - rewrite (success_malformed _ msg Hs); [reflexivity | | exact Hd].
    right. intros Ht. rewrite Ht in Hhtml. discriminate Hhtml.
  - case_bool_decide as He.
    + destruct (response_codes_error _ He) as (phrase & _ & Hget).
      pose proof Hd as Hjson%json_malformed.
      unfold parse_response.
      rewrite (error_status_not_success _ He), (proj2 (code_in_error _) He).
      unfold parse_http_error. rewrite Hjson.
      cbn [mbind Outcome_bind mret Outcome_ret try_except_ValueError].
      rewrite Hget.
      cbn [mbind Outcome_bind mret Outcome_ret Result.response].
      rewrite Hhtml. reflexivity.
    + unfold parse_response.
      destruct (code_in _ HTTP_SUCCESS_CODES) eqn:E1.
      { apply code_in_success, list_elem_of_singleton in E1. contradiction. }
      destruct (code_in _ HTTP_ERROR_CODES) eqn:E2.
      { by apply code_in_error in E2. }
      reflexivity.
Qed.

(** [login] reads neither auto_login nor login_result. *)
Lemma login_same_request (p q : Process) :
  login_request (self p) = login_request (self q) ->
  Viptela.vmanage_server (self p) = Viptela.vmanage_server (self q) ->
  world p = world q ->
  fst (login backend p) = fst (login backend q) /\
  world (snd (login backend p)) = world (snd (login backend q)).
Proof.
  intros Hrequest Hserver Hworld. rewrite !login_cases.
  unfold after_login. rewrite Hrequest, Hserver, Hworld.
  destruct (backend _ _ ≫= parse_response) as [[result|]|[]];
    try (split; reflexivity).
  destruct (String.prefix _ _); split; reflexivity.
Qed.

(** X12. What the constructor does to the world and what it builds.  It
    sends the login call when auto_login is on and nothing otherwise, and
    that call carries the verify flag and the timeout it was given; it
    switches the warnings off when asked and never back on.  A returned
    instance has base_url https://<server>:<port>/dataservice, a session
    that verifies exactly when verify is set, and a login_result exactly
    when auto_login is on.  With auto_login off it always returns. *)
Theorem constructor_effects (user user_pass vmanage_server : string)
    (vmanage_server_port : Z) (verify disable_warnings : bool) (timeout : Z)
    (auto_login : bool) (w : World) :
  let built :=
    __init__ backend user user_pass vmanage_server vmanage_server_port
      verify disable_warnings timeout auto_login w in
  let base_url :=
    "https://" ++ vmanage_server ++ ":" ++ pretty vmanage_server_port
      ++ "/dataservice" in
  calls (snd built) =
    (calls w ++
     if auto_login then
       [mkRequest POST (base_url ++ "/j_security_check")
          {[ "Content-Type" := "application/x-www-form-urlencoded" ]}
          (Some (FormFields
             (<[ "j_username" := user ]> (<[ "j_password" := user_pass ]> ∅))))
          None timeout verify]
     else [])%list /\
  warnings_disabled (snd built) = disable_warnings || warnings_disabled w /\
  (forall this : Viptela.t,
     fst built = Return this ->
     Viptela.base_url this = base_url /\
     session_verify (Viptela.session this) = verify /\
     Viptela.timeout this = timeout /\
     (is_Some (Viptela.login_result this) <-> auto_login = true)) /\
  (auto_login = false -> exists this : Viptela.t, fst built = Return this).
Proof.
  intros built base_url. subst built base_url.
  unfold __init__, urllib3_disable_warnings, mret, M_ret.
  destruct disable_warnings; cbv beta iota zeta; destruct auto_login.
  1, 3: match goal with
    | |- context [login backend ?p] =>
        pose proof (login_world p) as Hworld;
        destruct (login backend p) as [[result|e] p1]
    end; cbn [fst snd] in *; subst p1;
      destruct verify;
      (split; [reflexivity|]); (split; [reflexivity|]);
      (split; [|discriminate]); try discriminate;
      intros this [= <-]; repeat split; eauto.
  all: destruct verify; cbn [fst snd];
      (split; [cbn; by rewrite app_nil_r|]); (split; [reflexivity|]);
      (split; [|eauto]);
      intros this [= <-]; repeat split; try reflexivity;
      try discriminate; by intros [? [=]].
Qed.

(** X13. Auto-login is construction followed by [login]: building the
    instance with auto_login on leaves the world as building it with
    auto_login off and then calling [login] does, raises exactly what that
    [login] raises, and otherwise returns the instance holding the Result
    of that [login]. *)
Theorem auto_login_is_login (user user_pass vmanage_server : string)
    (vmanage_server_port : Z) (verify disable_warnings : bool) (timeout : Z)
    (w w0 : World) (this0 : Viptela.t) :
  __init__ backend user user_pass vmanage_server vmanage_server_port
    verify disable_warnings timeout false w = (Return this0, w0) ->
  let auto :=
    __init__ backend user user_pass vmanage_server vmanage_server_port
      verify disable_warnings timeout true w in
  let explicit := login backend {| self := this0; world := w0 |} in
  snd auto = world (snd explicit) /\
  (forall e : Exception, fst auto = Raise e <-> fst explicit = Raise e) /\
  (forall result : Result.t,
     fst explicit = Return result <->
     exists this : Viptela.t,
       fst auto = Return this /\
       Viptela.login_result this = Some result /\
       Viptela.base_url this = Viptela.base_url this0 /\
       Viptela.session this = Viptela.session this0).
Proof.
  unfold __init__, urllib3_disable_warnings, mret, M_ret.
  destruct disable_warnings; cbv beta iota zeta;
    intros [= <- <-].
  all: match goal with
  | |- context [world (snd (login backend ?q))] =>
      match goal with
      | |- context [match login backend ?p with _ => _ end] =>
          destruct (login_same_request p q eq_refl eq_refl eq_refl)
            as [Hfst Hsnd];
          pose proof (login_world p) as Hp; pose proof (login_world q) as Hq;
          destruct (login backend p) as [o1 p1];
          destruct (login backend q) as [o2 p2]
      end
  end.
  all: cbn [fst snd] in *; subst.
  all: destruct o2 as [result|e]; cbn [fst snd world after_login self].
  all: split; [reflexivity|]; split.
  all: try (intros e'; split; congruence).
  all: try (intros e'; split; discriminate).
  all: intros result'; split.
  all: try (intros [= <-]; eexists; repeat split; reflexivity).
  all: try (intros (this & [= <-] & [= <-] & _); reflexivity).
  all: try discriminate.
  all: try (intros (this & [=] & _)).
Qed.


(** X14. Each GET method of the catalog sends exactly one GET for a URL
    under base_url, with the default headers, no payload and the timeout
    10 rather than the timeout the instance was built with; it returns
    what [parse_response] makes of the answer, checks none of its
    arguments and leaves the instance as it was. *)
Theorem catalog_sends_one_GET (p : Process)
    (status_url device_uuid device_id template_id : string) (flag : bool) :
  sends_one_GET backend (check_status backend status_url) p /\
  sends_one_GET backend (check_firmware backend) p /\
  sends_one_GET backend (get_template_device backend) p /\
  sends_one_GET backend (get_banner backend) p /\
  sends_one_GET backend (get_all_devices backend) p /\
  sends_one_GET backend (get_running_config backend device_uuid flag) p /\
  sends_one_GET backend (get_device_maps backend) p /\
  sends_one_GET backend (get_arp_table backend device_id) p /\
  sends_one_GET backend (get_bgp_summary backend device_id) p /\
  sends_one_GET backend (get_ospf_database backend device_id flag) p /\
  sends_one_GET backend (get_omp_peers backend device_id flag) p /\
  sends_one_GET backend (get_template_feature backend template_id) p.
Proof.
  repeat match goal with |- _ /\ _ => split end.
  all: try destruct flag.
  all: try destruct (truthy (JString template_id)) eqn:Hid.
  all: unfold check_status, check_firmware, get_template_device, get_banner,
         get_all_devices, get_running_config, get_device_maps, get_arp_table,
         get_bgp_summary, get_ospf_database, get_omp_peers,
         get_template_feature.
  all: unfold sends_one_GET, mbind, M_bind, get_self; cbv beta iota zeta;
         rewrite ?Hid; unfold on_world; rewrite _get_call; cbv zeta.
  all: match goal with
       | |- context [backend _ ?request] => exists request
       end.
  all: repeat match goal with |- _ /\ _ => split end;
         first [reflexivity | apply prefix_app].
Qed.

End Client.

(** * The merged status table *)

(** X15. The merged table holds each status of the two tables with the
    phrase of its own table and nothing else, and no status is in both
    tables, so neither update overwrites an entry. *)
Theorem response_codes_merge (s : Z) :
  HTTP_RESPONSE_CODES !! s =
    from_option Some (HTTP_ERROR_CODES !! s) (HTTP_SUCCESS_CODES !! s) /\
  ~ (is_Some (HTTP_SUCCESS_CODES !! s) /\ is_Some (HTTP_ERROR_CODES !! s)) /\
  (is_Some (HTTP_RESPONSE_CODES !! s) <->
   s ∈ (success_statuses ++ error_statuses)%list).
Proof.
  assert (Hsuccess : is_Some (HTTP_SUCCESS_CODES !! s) <-> s ∈ success_statuses).
  { rewrite <- code_in_success. unfold code_in.
    destruct (HTTP_SUCCESS_CODES !! s); split;
      try discriminate; eauto; by intros [? [=]]. }
  assert (Herror : is_Some (HTTP_ERROR_CODES !! s) <-> s ∈ error_statuses).
  { rewrite <- code_in_error. unfold code_in.
    destruct (HTTP_ERROR_CODES !! s); split;
      try discriminate; eauto; by intros [? [=]]. }
  assert (Hmerge : HTTP_RESPONSE_CODES !! s =
            from_option Some (HTTP_ERROR_CODES !! s) (HTTP_SUCCESS_CODES !! s)).
  { unfold HTTP_RESPONSE_CODES, dict_update.
    rewrite !lookup_union, lookup_empty.
    destruct (HTTP_SUCCESS_CODES !! s) as [a|] eqn:Ha;
      destruct (HTTP_ERROR_CODES !! s) as [b|] eqn:Hb; try reflexivity.
    exfalso.
    assert (H200 : s ∈ success_statuses) by (apply Hsuccess; eauto).
    apply list_elem_of_singleton in H200. subst s. discriminate Hb. }
  split; [exact Hmerge|]. split.
  - rewrite Hsuccess, Herror, error_statuses_cases.
    intros [->%list_elem_of_singleton H]. lia.
  - rewrite Hmerge, elem_of_app, <- Hsuccess, <- Herror.
    destruct (HTTP_SUCCESS_CODES !! s), (HTTP_ERROR_CODES !! s);
      cbn; split; eauto; intros [[? [=]]|[? [=]]].
Qed.

(** * The further properties on the sample traffic *)

(** An empty data list is passed over and the config is the payload. *)
Lemma parse_response_get_priority_witness :
  parse_response sample_config =
    Return (Some
      {| Result.ok := true;
         Result.status_code := 200;
         Result.error := Val (JString EmptyString);
         Result.reason := JString "Success";
         Result.data := JString "system host-name vedge1";
         Result.response := sample_config |}).
Proof.
  rewrite (parse_response_get_priority sample_config
             (<[ "data" := JArray [] ]>
             (<[ "config" := JString "system host-name vedge1" ]> ∅)));
    reflexivity.
Defined.

(** The empty answer to an accepted login. *)
Lemma parse_response_empty_body_witness :
  parse_response sample_login_accepted =
    Return (Some
      {| Result.ok := true;
         Result.status_code := 200;
         Result.error := Val (JString EmptyString);
         Result.reason := JString "Success";
         Result.data := JString EmptyString;
         Result.response := sample_login_accepted |}).
Proof.
  apply (parse_response_empty_body sample_login_accepted);
    [reflexivity | discriminate | reflexivity].
Defined.

(** The id of a pushed action is the payload. *)
Lemma parse_response_post_priority_witness :
  parse_response sample_push =
    Return (Some
      {| Result.ok := true;
         Result.status_code := 200;
         Result.error := Val (JString EmptyString);
         Result.reason := JString "Success";
         Result.data := JString "push-7";
         Result.response := sample_push |}).
Proof.
  rewrite (parse_response_post_priority sample_push
             {[ "id" := JString "push-7" ]});
    [reflexivity | reflexivity | discriminate | discriminate | reflexivity].
Defined.

(** An object body gives a Result; a body of plain text raises ValueError
    and nothing else. *)
Lemma parse_response_200_outcomes_witness :
  (exists result, parse_response sample_devices = Return (Some result)) /\
  ~ (exists result, parse_response sample_plain_text = Return (Some result)).
Proof.
  split.
  - apply (parse_response_200_outcomes sample_devices); [reflexivity|].
    right. eexists. reflexivity.
  - intros H.
    apply (parse_response_200_outcomes sample_plain_text) in H;
      [|reflexivity].
    destruct H as [[H _]|[m H]]; [by apply H | discriminate H].
Defined.

(** A full error body gives a Result; the bare object does not. *)
Lemma parse_response_error_outcomes_witness :
  (exists result, parse_response sample_bad_request = Return (Some result)) /\
  ~ (exists result,
       parse_response sample_not_found_bare = Return (Some result)).
Proof.
  split.
  - apply (parse_response_error_outcomes sample_bad_request).
    { apply error_statuses_cases. vm_compute. tauto. }
    right. do 4 eexists. repeat split; reflexivity.
  - intros H.
    apply (parse_response_error_outcomes sample_not_found_bare) in H.
    2: { apply error_statuses_cases. vm_compute. tauto. }
    destruct H as [[msg H]|(m & e & D & M & [= <-] & H & _)];
      discriminate H.
Defined.

(** The Result made of the not-found page. *)
Lemma parse_response_result_shape_witness :
  exists result : Result.t,
    parse_response sample_not_found_text = Return (Some result) /\
    Result.response result = sample_not_found_text /\
    Result.status_code result = 404%Z /\
    Result.ok result = false /\
    Result.data result = JObject ∅.
Proof.
  eexists. split; [vm_compute; reflexivity|].
  destruct (parse_response_result_shape sample_not_found_text _ eq_refl)
    as (Hresponse & Hcode & [(Hok & H200 & _)|(Hok & _ & Hdata)]).
  - discriminate H200.
  - split; [exact Hresponse|]. split; [exact Hcode|].
    split; [exact Hok | exact Hdata].
Defined.

(** A server that cannot be reached. *)
Lemma login_connection_failure_witness :
  login refusing sample_process =
    (Raise (LoginFailure (LoginTimeoutError
              "Could not connect to vmanage.example.net")),
     after_login sample_process).
Proof.
  apply (login_connection_failure refusing sample_process
           (ConnectionError "Connection refused")).
  reflexivity.
Defined.

(** A login answered with 401. *)
Lemma login_unclassified_status_witness :
  login (always sample_unauthorized) sample_process =
    (Raise (AttributeError "response"), after_login sample_process).
Proof.
  apply (login_unclassified_status (always sample_unauthorized)
           sample_process sample_unauthorized).
  - reflexivity.
  - intros H%list_elem_of_singleton. discriminate H.
  - intros H%error_statuses_cases. vm_compute in H. lia.
Defined.

(** An accepted login: one call, and the Result of its answer. *)
Lemma login_sends_one_call_witness :
  snd (login (always sample_login_accepted) sample_process) =
    after_login sample_process /\
  exists result : Result.t,
    fst (login (always sample_login_accepted) sample_process) = Return result /\
    parse_response sample_login_accepted = Return (Some result).
Proof.
  destruct (login_sends_one_call (always sample_login_accepted) sample_process)
    as [Hworld Hresult].
  split; [exact Hworld|].
  eexists. split; [vm_compute; reflexivity|].
  destruct (Hresult _ eq_refl) as (response & [= <-] & Hparse & _).
  exact Hparse.
Defined.

(** A login answered with 400 and a JSON error body. *)
Lemma login_returns_error_result_witness :
  exists result : Result.t,
    login (always sample_bad_request) sample_process =
      (Return result, after_login sample_process) /\
    Result.ok result = false.
Proof.
  eexists.
  apply (login_returns_error_result (always sample_bad_request)
           sample_process sample_bad_request).
  - reflexivity.
  - apply error_statuses_cases. vm_compute. tauto.
  - reflexivity.
  - vm_compute. reflexivity.
Defined.

(** The login page with status 200 and with status 403. *)
Lemma login_on_html_page_witness :
  fst (login (always sample_login_page) sample_process) =
    Raise (ValueError expecting_value) /\
  fst (login (always sample_login_forbidden) sample_process) =
    Raise (LoginFailure (LoginCredentialsError
             "Could not login to device, check user credentials")).
Proof.
  split.
  - rewrite (login_on_html_page (always sample_login_page) sample_process
               sample_login_page expecting_value); reflexivity.
  - rewrite (login_on_html_page (always sample_login_forbidden) sample_process
               sample_login_forbidden expecting_value); reflexivity.
Defined.

(** Building the sample instance with auto_login on, against a backend
    that accepts the login. *)
Lemma constructor_effects_witness :
  calls (snd (__init__ (always sample_login_accepted) "admin" "secret"
                "vmanage.example.net" 8443 false false 10 true quiet_world)) =
    [login_request sample_client] /\
  exists this : Viptela.t,
    fst (__init__ (always sample_login_accepted) "admin" "secret"
           "vmanage.example.net" 8443 false false 10 true quiet_world)
      = Return this /\
    Viptela.base_url this = "https://vmanage.example.net:8443/dataservice" /\
    session_verify (Viptela.session this) = false /\
    is_Some (Viptela.login_result this).
Proof.
  destruct (constructor_effects (always sample_login_accepted) "admin" "secret"
              "vmanage.example.net" 8443 false false 10 true quiet_world)
    as (Hcalls & _ & Hthis & _).
  split; [exact Hcalls|].
  eexists. split; [vm_compute; reflexivity|].
  destruct (Hthis _ eq_refl) as (Hbase & Hverify & _ & Hlogin).
  split; [exact Hbase|]. split; [exact Hverify|]. by apply Hlogin.
Defined.

(** Auto-login and an explicit login on the sample instance. *)
Lemma auto_login_is_login_witness :
  snd (__init__ (always sample_login_accepted) "admin" "secret"
         "vmanage.example.net" 8443 false false 10 true quiet_world) =
    world (snd (login (always sample_login_accepted) sample_process)) /\
  forall e : Exception,
    fst (__init__ (always sample_login_forbidden) "admin" "secret"
           "vmanage.example.net" 8443 false false 10 true quiet_world)
      = Raise e <->
    fst (login (always sample_login_forbidden) sample_process) = Raise e.
Proof.
  split.
  - apply (auto_login_is_login (always sample_login_accepted) "admin" "secret"
             "vmanage.example.net" 8443 false false 10 quiet_world quiet_world
             sample_client).
    reflexivity.
  - apply (auto_login_is_login (always sample_login_forbidden) "admin" "secret"
             "vmanage.example.net" 8443 false false 10 quiet_world quiet_world
             sample_client).
    reflexivity.
Defined.
